(** * rope.contrib.autoimport.parse: finding importable names

    A shallow embedding of [rope/contrib/autoimport/parse.py] and the
    properties of its five functions: [get_names], [parse_all],
    [get_names_from_file], [find_all_names_in_package] and
    [get_names_from_compiled].

    The Python code reads files, prints diagnostics, imports modules and
    raises exceptions.  Those effects are kept: every function returns, in
    the monad [Py], the trace of what it attempted together with either the
    value it returned or the exception it raised. *)

From Stdlib Require Import String Ascii List Bool ZArith DecimalString.
Import ListNotations.
Set Warnings "-register-all".
Local Open Scope string_scope.
Local Open Scope list_scope.

(** ** Python strings *)

(** [s.startswith(p)]. *)
Definition startswith (s p : string) : bool := String.prefix p s.

(** [s.__contains__(sub)]: substring test. *)
Definition contains (s sub : string) : bool :=
  match String.index 0 sub s with
  | Some _ => true
  | None => false
  end.

(** [s.endswith(p)], used by the [*.py] glob pattern. *)
Definition endswith (s p : string) : bool :=
  let n := String.length s in
  let k := String.length p in
  (k <=? n)%nat && String.eqb (String.substring (n - k) k s) p.

(** [s.rfind(".")], counting positions from [i]. *)
Fixpoint rfind_dot (s : string) (i : nat) : option nat :=
  match s with
  | EmptyString => None
  | String c rest =>
      match rfind_dot rest (S i) with
      | Some j => Some j
      | None => if Ascii.eqb c "."%char then Some i else None
      end
  end.

(** ** Runtime values and exceptions *)

(** The Python objects whose [str()] the code takes: the value of an
    [ast.Constant] and the items of a module's [__all__]. *)
Inductive pyvalue : Type :=
  | PyStr (s : string)
  | PyInt (z : Z)
  | PyBool (b : bool)
  | PyNone
  | PyOther (rendered : string).

(** [str(v)], the text it gives.  For an [int] that is its decimal digits;
    CPython 3.11 and later refuse to render an [int] of more than
    [int_max_str_digits] digits and raise [ValueError] instead, which
    [str_returns] below tells apart. *)
Definition py_str (v : pyvalue) : string :=
  match v with
  | PyStr s => s
  | PyInt z => NilZero.string_of_int (Z.to_int z)
  | PyBool true => "True"
  | PyBool false => "False"
  | PyNone => "None"
  | PyOther rendered => rendered
  end.

(** The exceptions the code meets.  [SyntaxError] and [ImportError] stand
    for the class and its subclasses, as an [except] clause sees them. *)
Inductive exn : Type :=
  | SyntaxError (msg : string)
  | ImportError (msg : string)
  | OSError (msg : string)
  | AssertionError
  | AttributeError
  | OtherException (cls msg : string).

Inductive outcome (A : Type) : Type :=
  | Returned (a : A)
  | Raised (e : exn).
Arguments Returned {A} a.
Arguments Raised {A} e.

(** ** Paths ([pathlib.Path]) *)

Definition path : Type := list string.

(** [p / name]. *)
Definition joinpath (p : path) (name : string) : path := p ++ [name].
Notation "p // name" := (joinpath p name) (at level 40, left associativity).

(** [p.name]: the final component. *)
Definition name_of (p : path) : string := last p "".

(** The position of the dot that starts the suffix of a file name, as
    pathlib computes it: the last dot, when it is neither the first nor the
    last character. *)
Definition suffix_index (name : string) : option nat :=
  match rfind_dot name 0 with
  | Some i =>
      if ((0 <? i) && (i <? String.length name - 1))%nat then Some i else None
  | None => None
  end.

(** [p.suffix]. *)
Definition suffix (p : path) : string :=
  let name := name_of p in
  match suffix_index name with
  | Some i => String.substring i (String.length name - i) name
  | None => ""
  end.

(** [p.stem]. *)
Definition stem (p : path) : string :=
  let name := name_of p in
  match suffix_index name with
  | Some i => String.substring 0 i name
  | None => name
  end.

(** ** The syntax tree ([ast]) *)

Module ast.

(** Expressions, as far as the code looks into them: the targets of an
    assignment and the elements of its right-hand side. *)
Inductive expr : Type :=
  | Name (id : string)
  | Constant (value : pyvalue)
  | List (elts : list expr)
  | Tuple (elts : list expr)
  | Attribute (value : expr) (attr : string)
  | Subscript (value slice : expr)
  | Starred (value : expr)
  | OtherExpr.

(** Top-level statements.  [AnnAssign], [AugAssign], [AsyncFunctionDef],
    [Expr], [Import], [If] and the rest are [OtherStmt]: none of them is an
    instance of [ast.Assign], [ast.FunctionDef] or [ast.ClassDef].  Some of
    them have a [value] attribute ([Expr], [AnnAssign], [AugAssign]), which
    [OtherStmt] keeps; an attribute that is [None] is given as [OtherExpr],
    neither being an [ast.List]. *)
Inductive stmt : Type :=
  | Assign (targets : list expr) (value : expr)
  | FunctionDef (name : string)
  | ClassDef (name : string)
  | OtherStmt (value : option expr).

End ast.

(** ** Names, sources and package types ([defs.py]) *)

(** Modelled from the spec: [defs.Source] is not among the sources; the code
    only reads its [value], the provenance tag carried into every name. *)
Record Source : Type := mkSource { value : Z }.

(** Modelled from the spec: [defs.PackageType], the three package layouts
    (directory package, compiled extension, single-file module). *)
Inductive PackageType : Type :=
  | STANDARD
  | COMPILED
  | SINGLE_FILE.

(** [defs.Name]: the tuple [(name, modname, package, source.value)]. *)
Definition Name : Type := (string * string * string * Z)%type.

(** ** The world outside the code *)

(** A file system: a file holds what [open(...).read()] gives (its bytes, or
    the error of an unreadable file); a directory lists its entries in the
    order a scan enumerates them. *)
Inductive fsnode : Type :=
  | FsFile (content : outcome string)
  | FsDir (entries : list (string * fsnode)).

Fixpoint assoc (name : string) (entries : list (string * fsnode)) : option fsnode :=
  match entries with
  | [] => None
  | (n, node) :: rest => if String.eqb n name then Some node else assoc name rest
  end.

Definition child (cur : option fsnode) (name : string) : option fsnode :=
  match cur with
  | Some (FsDir entries) => assoc name entries
  | _ => None
  end.

Definition resolve (root : fsnode) (p : path) : option fsnode :=
  fold_left child p (Some root).

(** A module object as the reflective extractor inspects it: its [__all__]
    attribute when it has one, and [inspect.getmembers(module)]. *)
Inductive member_kind : Type :=
  | KClass
  | KFunction
  | KBuiltin
  | KData.

Record pymodule : Type := mkModule {
  module_all : option (list pyvalue);
  getmembers : list (string * member_kind)
}.

(** What the code takes from its environment.  The four helpers of
    [utils.py] are not among the sources and are parameters here, as are the
    Python parser and the import system. *)
Record Env : Type := mkEnv {
  fs : fsnode;
  ast_parse : string -> outcome (list ast.stmt);
  import_module : string -> outcome pymodule;
  get_package_name_from_path : path -> option (string * PackageType);
  get_package_source : path -> Source;
  submodules : path -> list path;
  get_modname_from_path : path -> path -> string
}.

(** [p.is_dir()]. *)
Definition is_dir (env : Env) (p : path) : bool :=
  match resolve (fs env) p with
  | Some (FsDir _) => true
  | _ => false
  end.

(** [p.exists()]. *)
Definition exists_ (env : Env) (p : path) : bool :=
  match resolve (fs env) p with
  | Some _ => true
  | None => false
  end.

(** [p.glob("*.py")]: the entries directly in [p] whose name matches. *)
Definition glob_py (env : Env) (p : path) : list path :=
  match resolve (fs env) p with
  | Some (FsDir entries) =>
      map (fun e => p // fst e) (filter (fun e => endswith (fst e) ".py") entries)
  | _ => []
  end.

(** [open(p, mode="rb")] followed by [file.read()]. *)
Definition open_read (env : Env) (p : path) : outcome string :=
  match resolve (fs env) p with
  | Some (FsFile content) => content
  | Some (FsDir _) => Raised (OSError "IsADirectoryError")
  | None => Raised (OSError "FileNotFoundError")
  end.

(** ** The effect monad *)

(** What a run does that a caller or a test can observe. *)
Inductive event : Type :=
  | EvOpen (file : path)
  | EvPrint (text : string)
  | EvGlob (dir : path)
  | EvSubmodules (dir : path)
  | EvImport (module : string).

(** A computation: the events it performed, in order, and how it ended. *)
Definition Py (A : Type) : Type := (list event * outcome A)%type.

Definition ret {A : Type} (a : A) : Py A := ([], Returned a).
Definition raise {A : Type} (e : exn) : Py A := ([], Raised e).
Definition emit (ev : event) : Py unit := ([ev], Returned tt).
Definition lift {A : Type} (o : outcome A) : Py A := ([], o).

Definition bind {A B : Type} (m : Py A) (k : A -> Py B) : Py B :=
  match snd m with
  | Raised e => (fst m, Raised e)
  | Returned a => (fst m ++ fst (k a), snd (k a))
  end.

Definition trace {A : Type} (m : Py A) : list event := fst m.
Definition result {A : Type} (m : Py A) : outcome A := snd m.

Declare Scope py_scope.
Delimit Scope py_scope with py.
Notation "x <- m ;; k" := (bind m (fun x => k))
  (at level 100, m at next level, right associativity) : py_scope.
Notation "m ;; k" := (bind m (fun _ => k))
  (at level 100, right associativity) : py_scope.
Local Open Scope py_scope.

(** ** [parse_all] *)

(** The loop of [parse_all] over [node.value.elts]: each item must be an
    [ast.Constant], and contributes [str(item.value)]. *)
Fixpoint parse_all_items (elts : list ast.expr) (modname package : string)
    (package_source : Source) (all_results : list Name) : outcome (list Name) :=
  match elts with
  | [] => Returned all_results
  | item :: rest =>
      match item with
      | ast.Constant v =>
          parse_all_items rest modname package package_source
            (all_results ++ [(py_str v, modname, package, value package_source)])
      | _ => Raised AssertionError
      end
  end.

(** [parse_all(node, modname, package, package_source)]: the contents of the
    node that assigns [__all__].  It reads [node.value] and nothing else of
    the node, so any node with a [value] will do; one without raises
    [AttributeError].  Its two assertions raise when the value is not an
    [ast.List] or an item is not an [ast.Constant]. *)
Definition parse_all (node : ast.stmt) (modname package : string)
    (package_source : Source) : outcome (list Name) :=
  match node with
  | ast.Assign _ node_value | ast.OtherStmt (Some node_value) =>
      match node_value with
      | ast.List elts => parse_all_items elts modname package package_source []
      | _ => Raised AssertionError
      end
  | ast.FunctionDef _ | ast.ClassDef _ | ast.OtherStmt None =>
      Raised AttributeError
  end.

(** ** [get_names_from_file] *)

(** The loop over [node.targets] of an assignment.  It ends the whole
    function with [inl names] when a target is [__all__] and [parse_all]
    returns; otherwise it hands back [inr node_names].  A target that is not
    an [ast.Name], and a [parse_all] that fails an assertion, are passed
    over by the [except (AttributeError, AssertionError)] clause. *)
Fixpoint assign_targets (targets : list ast.expr) (node : ast.stmt)
    (modname package : string) (package_source : Source)
    (node_names : list string) : outcome (list Name + list string) :=
  match targets with
  | [] => Returned (inr node_names)
  | target :: rest =>
      match target with
      | ast.Name id =>
          if String.eqb id "__all__" then
            match parse_all node modname package package_source with
            | Returned names => Returned (inl names)
            | Raised AssertionError | Raised AttributeError =>
                assign_targets rest node modname package package_source node_names
            | Raised e => Raised e
            end
          else
            assign_targets rest node modname package package_source
              (node_names ++ [id])
      | _ => assign_targets rest node modname package package_source node_names
      end
  end.

(** The loop [for node_name in node_names] with its privacy test. *)
Fixpoint append_names (node_names : list string) (modname package : string)
    (package_source : Source) (underlined : bool) (results : list Name)
    : list Name :=
  match node_names with
  | [] => results
  | node_name :: rest =>
      if underlined || negb (startswith node_name "_") then
        append_names rest modname package package_source underlined
          (results ++ [(node_name, modname, package, value package_source)])
      else
        append_names rest modname package package_source underlined results
  end.

(** The loop over [ast.iter_child_nodes(root_node)]: [inl names] when an
    assignment to [__all__] ended the function, [inr results] when the loop
    ran to its end. *)
Fixpoint child_nodes_loop (nodes : list ast.stmt) (modname package : string)
    (package_source : Source) (underlined : bool) (results : list Name)
    : outcome (list Name + list Name) :=
  match nodes with
  | [] => Returned (inr results)
  | node :: rest =>
      match node with
      | ast.Assign targets _ =>
          match assign_targets targets node modname package package_source [] with
          | Raised e => Raised e
          | Returned (inl names) => Returned (inl names)
          | Returned (inr node_names) =>
              child_nodes_loop rest modname package package_source underlined
                (append_names node_names modname package package_source
                   underlined results)
          end
      | ast.FunctionDef name | ast.ClassDef name =>
          child_nodes_loop rest modname package package_source underlined
            (append_names [name] modname package package_source underlined
               results)
      | ast.OtherStmt _ =>
          child_nodes_loop rest modname package package_source underlined
            (append_names [] modname package package_source underlined results)
      end
  end.

(** [get_names_from_file(module, modname, package, package_source,
    only_all, underlined)]. *)
Definition get_names_from_file (env : Env) (module : path)
    (modname package : string) (package_source : Source)
    (only_all underlined : bool) : Py (list Name) :=
  emit (EvOpen module) ;;
  source <- lift (open_read env module) ;;
  match ast_parse env source with
  | Raised (SyntaxError error) => emit (EvPrint error) ;; ret []
  | Raised e => raise e
  | Returned root_node =>
      r <- lift (child_nodes_loop root_node modname package package_source
                   underlined []) ;;
      match r with
      | inl names => ret names
      | inr results => if only_all then ret [] else ret results
      end
  end.

(** ** [get_names] *)

(** The loop [for file in modpath.glob("*.py")], extending [names]. *)
Fixpoint extend_names (env : Env) (files : list path)
    (modname package_name : string) (package_source : Source)
    (underlined : bool) (names : list Name) : Py (list Name) :=
  match files with
  | [] => ret names
  | file :: rest =>
      found <- get_names_from_file env file (modname ++ "." ++ stem file)
                 package_name package_source false underlined ;;
      extend_names env rest modname package_name package_source underlined
        (names ++ found)
  end.

(** The per-file scan of a directory: the glob and the loop over it. *)
Definition scan_directory (env : Env) (modpath : path)
    (modname package_name : string) (package_source : Source)
    (underlined : bool) : Py (list Name) :=
  emit (EvGlob modpath) ;;
  extend_names env (glob_py env modpath) modname package_name package_source
    underlined [].

(** [get_names(modpath, modname, package_name, package_source, underlined)]. *)
Definition get_names (env : Env) (modpath : path)
    (modname package_name : string) (package_source : Source)
    (underlined : bool) : Py (list Name) :=
  if is_dir env modpath then
    if exists_ env (modpath // "__init__.py") then
      names <- get_names_from_file env (modpath // "__init__.py") modname
                 package_name package_source true false ;;
      if (0 <? length names)%nat then ret names
      else scan_directory env modpath modname package_name package_source
             underlined
    else
      scan_directory env modpath modname package_name package_source underlined
  else if String.eqb (suffix modpath) ".py" then
    get_names_from_file env modpath modname package_name package_source false
      underlined
  else ret [].

(** ** [find_all_names_in_package] *)

(** The loop over [submodules(package_path)] with its exclusion test. *)
Fixpoint submodules_loop (env : Env) (subs : list path) (package_path : path)
    (underlined : bool) (modules : list (path * string))
    : list (path * string) :=
  match subs with
  | [] => modules
  | sub :: rest =>
      let modname := get_modname_from_path env sub package_path in
      if underlined || contains modname "_" then
        submodules_loop env rest package_path underlined modules
      else
        submodules_loop env rest package_path underlined
          (modules ++ [(sub, modname)])
  end.

(** The final loop [for module in modules], extending [result]. *)
Fixpoint modules_loop (env : Env) (modules : list (path * string))
    (package_name : string) (package_source : Source) (underlined : bool)
    (result : list Name) : Py (list Name) :=
  match modules with
  | [] => ret result
  | module :: rest =>
      found <- get_names env (fst module) (snd module) package_name
                 package_source underlined ;;
      modules_loop env rest package_name package_source underlined
        (result ++ found)
  end.

(** [find_all_names_in_package(package_path, recursive, package_source,
    underlined)]; an absent [package_source] is [None]. *)
Definition find_all_names_in_package (env : Env) (package_path : path)
    (recursive : bool) (package_source : option Source) (underlined : bool)
    : Py (list Name) :=
  match get_package_name_from_path env package_path with
  | None => ret []
  | Some (package_name, package_type) =>
      let package_source :=
        match package_source with
        | None => get_package_source env package_path
        | Some given => given
        end in
      match package_type with
      | SINGLE_FILE =>
          modules_loop env [(package_path, package_name)] package_name
            package_source underlined []
      | COMPILED => ret []
      | STANDARD =>
          if recursive then
            emit (EvSubmodules package_path) ;;
            modules_loop env
              (submodules_loop env (submodules env package_path) package_path
                 underlined [])
              package_name package_source underlined []
          else
            modules_loop env [(package_path, package_name)] package_name
              package_source underlined []
      end
  end.

(** ** [get_names_from_compiled] *)

Definition banned : list string := ["builtins"; "python_crun"].

(** [package in banned]. *)
Definition in_banned (package : string) : bool :=
  existsb (String.eqb package) banned.

(** [inspect.isclass(v) or inspect.isfunction(v) or inspect.isbuiltin(v)]. *)
Definition is_class_or_callable (k : member_kind) : bool :=
  match k with
  | KClass | KFunction | KBuiltin => true
  | KData => false
  end.

(** The loop over [module.__all__]. *)
Fixpoint all_loop (names : list pyvalue) (package : string) (source : Source)
    (results : list Name) : list Name :=
  match names with
  | [] => results
  | name :: rest =>
      all_loop rest package source
        (results ++ [(py_str name, package, package, value source)])
  end.

(** The loop over [inspect.getmembers(module)]. *)
Fixpoint members_loop (members : list (string * member_kind))
    (package : string) (source : Source) (underlined : bool)
    (results : list Name) : list Name :=
  match members with
  | [] => results
  | (name, kind) :: rest =>
      if underlined || negb (startswith name "_") then
        if is_class_or_callable kind then
          members_loop rest package source underlined
            (results ++ [(name, package, package, value source)])
        else members_loop rest package source underlined results
      else members_loop rest package source underlined results
  end.

(** [get_names_from_compiled(package, source, underlined)]. *)
Definition get_names_from_compiled (env : Env) (package : string)
    (source : Source) (underlined : bool) : Py (list Name) :=
  if in_banned package || (startswith package "_" && negb underlined) then
    ret []
  else
    emit (EvImport package) ;;
    match import_module env package with
    | Raised (ImportError _) => ret []
    | Raised e => raise e
    | Returned module =>
        match module_all module with
        | Some names => ret (all_loop names package source [])
        | None =>
            ret (members_loop (getmembers module) package source underlined [])
        end
    end.

(** ** Describing a parsed file *)

(** The record a name gives rise to. *)
Definition record (modname package : string) (package_source : Source)
    (name : string) : Name :=
  (name, modname, package, value package_source).

(** The first component of a record. *)
Definition name_of_record (r : Name) : string := fst (fst (fst r)).

Definition is_constant (e : ast.expr) : bool :=
  match e with
  | ast.Constant _ => true
  | _ => false
  end.

(** The target is the identifier [__all__]. *)
Definition is_all_target (e : ast.expr) : bool :=
  match e with
  | ast.Name id => String.eqb id "__all__"
  | _ => false
  end.

(** The statement is an export-list override: an assignment with [__all__]
    among its targets whose right-hand side is a list literal of constants. *)
Definition export_list_override (node : ast.stmt) : bool :=
  match node with
  | ast.Assign targets (ast.List elts) =>
      existsb is_all_target targets && forallb is_constant elts
  | _ => false
  end.

(** [declares node id]: the top-level statement [node] declares [id], as a
    function, a class, or the plain-name target of an assignment. *)
Inductive declares : ast.stmt -> string -> Prop :=
  | declares_function (name : string) : declares (ast.FunctionDef name) name
  | declares_class (name : string) : declares (ast.ClassDef name) name
  | declares_target (targets : list ast.expr) (v : ast.expr) (id : string) :
      In (ast.Name id) targets -> declares (ast.Assign targets v) id.

(** The names an assignment collects when it is no override: its plain-name
    targets other than [__all__], in order. *)
Fixpoint target_ids (targets : list ast.expr) : list string :=
  match targets with
  | [] => []
  | ast.Name id :: rest =>
      if String.eqb id "__all__" then target_ids rest else id :: target_ids rest
  | _ :: rest => target_ids rest
  end.

(** The names a statement that is no override collects. *)
Definition collected (node : ast.stmt) : list string :=
  match node with
  | ast.Assign targets _ => target_ids targets
  | ast.FunctionDef name | ast.ClassDef name => [name]
  | ast.OtherStmt _ => []
  end.

(** No statement of the file is an export-list override. *)
Definition no_override (nodes : list ast.stmt) : bool :=
  forallb (fun node => negb (export_list_override node)) nodes.

(** The privacy test of [get_names_from_file]. *)
Definition kept (underlined : bool) (name : string) : bool :=
  underlined || negb (startswith name "_").

(** What the per-file scan of [get_names] extracts from one file of the
    directory: the call in the body of its loop. *)
Definition extract_file (env : Env) (modname package_name : string)
    (package_source : Source) (underlined : bool) (file : path)
    : Py (list Name) :=
  get_names_from_file env file (modname ++ "." ++ stem file) package_name
    package_source false underlined.

(** ** A small world to run the code in *)

Module Demo.

Definition nl : string := String (ascii_of_nat 10) "".

Definition src_all_foo : string :=
  "def foo(): pass" ++ nl ++ "class Bar: pass" ++ nl ++ "_hidden = 1" ++ nl
  ++ "__all__ = ['foo']".
Definition src_no_all : string :=
  "def foo(): pass" ++ nl ++ "class Bar: pass" ++ nl ++ "_hidden = 1".
Definition src_two_all : string := "__all__ = ['a']; __all__ = ['b']".
Definition src_empty_all : string := "__all__ = []; helper = 1".
Definition src_baz : string := "def baz(): pass".
Definition src_broken : string := "def (:".

Definition all_of (names : list string) : ast.stmt :=
  ast.Assign [ast.Name "__all__"]
    (ast.List (map (fun s => ast.Constant (PyStr s)) names)).

Definition table : list (string * list ast.stmt) :=
  [ (src_all_foo,
     [ast.FunctionDef "foo"; ast.ClassDef "Bar";
      ast.Assign [ast.Name "_hidden"] (ast.Constant (PyInt 1));
      all_of ["foo"]]);
    (src_no_all,
     [ast.FunctionDef "foo"; ast.ClassDef "Bar";
      ast.Assign [ast.Name "_hidden"] (ast.Constant (PyInt 1))]);
    (src_two_all, [all_of ["a"]; all_of ["b"]]);
    (src_empty_all,
     [all_of []; ast.Assign [ast.Name "helper"] (ast.Constant (PyInt 1))]);
    (src_baz, [ast.FunctionDef "baz"]) ].

Fixpoint lookup_source (source : string)
    (entries : list (string * list ast.stmt)) : outcome (list ast.stmt) :=
  match entries with
  | [] => Raised (SyntaxError "invalid syntax (<unknown>, line 1)")
  | (text, tree) :: rest =>
      if String.eqb text source then Returned tree
      else lookup_source source rest
  end.

(** A parser that knows the files of this world; any other text is a
    syntax error. *)
Definition parse (source : string) : outcome (list ast.stmt) :=
  lookup_source source table.

Definition math_module : pymodule :=
  mkModule None [("__doc__", KData); ("pi", KData); ("sin", KBuiltin)].

(** An importer: [math] loads, [broken_ext] raises while it initialises,
    anything else is not found. *)
Definition importer (package : string) : outcome pymodule :=
  if String.eqb package "math" then Returned math_module
  else if String.eqb package "broken_ext" then
    Raised (OtherException "RuntimeError" "initialisation failed")
  else Raised (ImportError ("No module named " ++ package)).

Definition root : fsnode :=
  FsDir
    [ ("exported",
       FsDir [ ("__init__.py", FsFile (Returned src_all_foo));
               ("extra.py", FsFile (Returned src_baz)) ]);
      ("plain",
       FsDir [ ("__init__.py", FsFile (Returned src_empty_all));
               ("broken.py", FsFile (Returned src_broken));
               ("notes.txt", FsFile (Returned "hello"));
               ("extra.py", FsFile (Returned src_baz)) ]);
      ("locked",
       FsDir [ ("secret.py", FsFile (Raised (OSError "Permission denied")));
               ("extra.py", FsFile (Returned src_baz)) ]);
      ("my_pkg", FsDir [ ("__init__.py", FsFile (Returned src_baz)) ]);
      ("two.py", FsFile (Returned src_two_all));
      ("single.py", FsFile (Returned src_no_all));
      ("math.so", FsFile (Returned "")) ].

Definition classify (p : path) : option (string * PackageType) :=
  match p with
  | [name] =>
      if String.eqb name "math.so" then Some ("math", COMPILED)
      else if endswith name ".py" then Some (stem p, SINGLE_FILE)
      else Some (name, STANDARD)
  | _ => None
  end.

Definition project : Source := mkSource 0.

(** Every directory of this world is one module, named after it. *)
Definition world : Env :=
  mkEnv root parse importer classify (fun _ => project)
    (fun p => [p]) (fun sub _ => name_of sub).

End Demo.

(** ** Reading records and traces *)

(** The defining module, the owning package and the provenance tag of a
    record. *)
Definition module_of_record (r : Name) : string := snd (fst (fst r)).
Definition package_of_record (r : Name) : string := snd (fst r).
Definition source_of_record (r : Name) : Z := snd r.

(** The event is an attempt to import a module. *)
Definition is_import (ev : event) : bool :=
  match ev with
  | EvImport _ => true
  | _ => false
  end.

(** The provenance [find_all_names_in_package] works with: the one it is
    given, or else the one it derives from the path. *)
Definition source_in_use (env : Env) (package_path : path)
    (package_source : option Source) : Source :=
  match package_source with
  | None => get_package_source env package_path
  | Some given => given
  end.

(** The member passes the tests of the loop over [inspect.getmembers]. *)
Definition member_kept (underlined : bool) (member : string * member_kind)
    : bool :=
  kept underlined (fst member) && is_class_or_callable (snd member).

(** ** A second world: more files, packages and modules *)

Module Samples.

Definition src_nums : string := "__all__ = [1, None, 'x']".
Definition src_mixed : string := "__all__ = ['a', b]; c = 1".
Definition src_unpack : string := "a, b = 1, 2; x.y = 3; c = d = 4".

Definition table : list (string * list ast.stmt) :=
  [ (src_nums,
     [ast.Assign [ast.Name "__all__"]
        (ast.List [ast.Constant (PyInt 1); ast.Constant PyNone;
                   ast.Constant (PyStr "x")])]);
    (src_mixed,
     [ast.Assign [ast.Name "__all__"]
        (ast.List [ast.Constant (PyStr "a"); ast.Name "b"]);
      ast.Assign [ast.Name "c"] (ast.Constant (PyInt 1))]);
    (src_unpack,
     [ast.Assign [ast.Tuple [ast.Name "a"; ast.Name "b"]]
        (ast.Tuple [ast.Constant (PyInt 1); ast.Constant (PyInt 2)]);
      ast.Assign [ast.Attribute (ast.Name "x") "y"] (ast.Constant (PyInt 3));
      ast.Assign [ast.Name "c"; ast.Name "d"] (ast.Constant (PyInt 4))]);
    ("", []) ].

Definition parse (source : string) : outcome (list ast.stmt) :=
  Demo.lookup_source source (table ++ Demo.table).

Definition json_module : pymodule :=
  mkModule (Some [PyStr "dumps"; PyStr "_default_decoder"; PyInt 3])
    [("dumps", KFunction); ("loads", KFunction)].

Definition socket_module : pymodule :=
  mkModule None
    [("AF_INET", KData); ("_realsocket", KClass); ("gethostname", KBuiltin);
     ("socket", KClass); ("timeout", KData)].

Definition importer (package : string) : outcome pymodule :=
  if String.eqb package "json" then Returned json_module
  else if String.eqb package "socket" then Returned socket_module
  else Demo.importer package.

Definition root : fsnode :=
  FsDir
    [ ("broken_init",
       FsDir [ ("__init__.py", FsFile (Returned Demo.src_broken));
               ("extra.py", FsFile (Returned Demo.src_baz)) ]);
      ("halts",
       FsDir [ ("a.py", FsFile (Returned Demo.src_baz));
               ("b.py", FsFile (Raised (OSError "Permission denied")));
               ("c.py", FsFile (Returned Demo.src_no_all)) ]);
      ("tree",
       FsDir [ ("__init__.py", FsFile (Returned ""));
               ("top.py", FsFile (Returned Demo.src_baz));
               ("sub", FsDir [ ("leaf.py", FsFile (Returned Demo.src_no_all)) ]) ]);
      ("nums.py", FsFile (Returned src_nums));
      ("mixed.py", FsFile (Returned src_mixed));
      ("unpack.py", FsFile (Returned src_unpack)) ].

(** The package [tree] has two submodules, itself and [tree.sub]. *)
Definition walk (p : path) : list path :=
  match p with
  | [name] => if String.eqb name "tree" then [["tree"]; ["tree"; "sub"]] else [p]
  | _ => [p]
  end.

Definition world : Env :=
  mkEnv root parse importer Demo.classify (fun _ => Demo.project) walk
    (fun sub _ => String.concat "." sub).

End Samples.

(** ** The limit on rendering integers *)

(** [sys.int_max_str_digits] as CPython 3.11 and later set it by default. *)
Definition int_max_str_digits : Z := 4300.

(** [str(v)] returns: [v] is no [int] of more than [int_max_str_digits]
    decimal digits.  (Earlier interpreters have no limit; there [str]
    returns for every value.) *)
Definition str_returns (v : pyvalue) : bool :=
  match v with
  | PyInt z => (Z.abs z <? 10 ^ int_max_str_digits)%Z
  | _ => true
  end.

(** Every constant item of every list literal assigned at top level has a
    [str()]: no export list of the file can make [str(item.value)] raise. *)
Definition constants_render (nodes : list ast.stmt) : bool :=
  forallb
    (fun node =>
       match node with
       | ast.Assign _ (ast.List elts) =>
           forallb
             (fun item =>
                match item with
                | ast.Constant v => str_returns v
                | _ => true
                end) elts
       | _ => true
       end) nodes.

(** ** A third world: entries that are not what their names suggest *)

Module Corner.

Definition src_tupled : string :=
  "__all__ = ('a', 'b')" ++ Demo.nl ++ "def a(): pass" ++ Demo.nl ++ "_x = 1".

Definition tupled_tree : list ast.stmt :=
  [ast.Assign [ast.Name "__all__"]
     (ast.Tuple [ast.Constant (PyStr "a"); ast.Constant (PyStr "b")]);
   ast.FunctionDef "a";
   ast.Assign [ast.Name "_x"] (ast.Constant (PyInt 1))].

Definition parse (source : string) : outcome (list ast.stmt) :=
  Demo.lookup_source source ((src_tupled, tupled_tree) :: Demo.table).

(** In the directory [odd], the entry [weird.py] is itself a directory. *)
Definition root : fsnode :=
  FsDir
    [ ("odd",
       FsDir [ ("a.py", FsFile (Returned Demo.src_baz));
               ("weird.py", FsDir []);
               ("z.py", FsFile (Returned Demo.src_no_all)) ]);
      ("tupled.py", FsFile (Returned src_tupled)) ].

Definition world : Env :=
  mkEnv root parse Demo.importer Demo.classify (fun _ => Demo.project)
    (fun p => [p]) (fun sub _ => name_of sub).

End Corner.

(** * Properties *)

(** ** The monad *)

Lemma bind_returned {A B : Type} (m : Py A) (k : A -> Py B) (a : A) :
  result m = Returned a ->
  bind m k = (trace m ++ trace (k a), result (k a)).
Proof. unfold bind, result, trace. now intros ->. Qed.

Lemma result_bind_returned {A B : Type} (m : Py A) (k : A -> Py B) (a : A) :
  result m = Returned a -> result (bind m k) = result (k a).
Proof. intros H. now rewrite (bind_returned _ _ _ H). Qed.

(** ** [parse_all] on lists of constants *)

Lemma parse_all_items_constants (vs : list pyvalue) (modname package : string)
    (src : Source) (acc : list Name) :
  parse_all_items (map ast.Constant vs) modname package src acc
  = Returned (acc ++ map (fun v => record modname package src (py_str v)) vs).
Proof.
  revert acc. induction vs as [| v vs IH]; intros acc; simpl.
  - now rewrite app_nil_r.
  - rewrite IH, <- app_assoc. reflexivity.
Qed.

Lemma parse_all_items_returns (elts : list ast.expr) (modname package : string)
    (src : Source) (acc : list Name) :
  forallb is_constant elts = true ->
  exists names, parse_all_items elts modname package src acc = Returned names.
Proof.
  revert acc. induction elts as [| item rest IH]; intros acc H; simpl.
  - now exists acc.
  - simpl in H. apply andb_prop in H as [Hc Hrest].
    destruct item; try discriminate Hc. now apply IH.
Qed.

Lemma parse_all_items_raises (elts : list ast.expr) (modname package : string)
    (src : Source) (acc : list Name) :
  forallb is_constant elts = false ->
  parse_all_items elts modname package src acc = Raised AssertionError.
Proof.
  revert acc. induction elts as [| item rest IH]; intros acc H; simpl in *.
  - discriminate H.
  - destruct item; try reflexivity. simpl in H. now apply IH.
Qed.

(** [parse_all] on an assignment returns, or fails one of its assertions. *)
Lemma parse_all_assign (targets : list ast.expr) (v : ast.expr)
    (modname package : string) (src : Source) :
  (exists elts names,
      v = ast.List elts /\ forallb is_constant elts = true
      /\ parse_all (ast.Assign targets v) modname package src = Returned names)
  \/ ((forall elts, v = ast.List elts -> forallb is_constant elts = false)
      /\ parse_all (ast.Assign targets v) modname package src
         = Raised AssertionError).
Proof.
  destruct v as [id | c | elts | elts | e a | e sl | e |];
    try (right; split; [intros ? H; discriminate H | reflexivity]).
  destruct (forallb is_constant elts) eqn:Hall.
  - left. destruct (parse_all_items_returns elts modname package src [] Hall)
      as [names Hn].
    exists elts, names. now repeat split.
  - right. split.
    + intros elts' H. now injection H as <-.
    + simpl. now apply parse_all_items_raises.
Qed.

(** ** The loop over the targets of an assignment *)

Lemma assign_targets_returns (targets : list ast.expr) (node : ast.stmt)
    (modname package : string) (src : Source) (names : list Name)
    (acc : list string) :
  parse_all node modname package src = Returned names ->
  existsb is_all_target targets = true ->
  assign_targets targets node modname package src acc = Returned (inl names).
Proof.
  intros Hp. revert acc.
  induction targets as [| t rest IH]; intros acc H; simpl in *.
  - discriminate H.
  - destruct t; simpl in H; try (now apply IH).
    destruct (String.eqb id "__all__"); simpl in H.
    + now rewrite Hp.
    + now apply IH.
Qed.

Lemma assign_targets_collects (targets : list ast.expr) (node : ast.stmt)
    (modname package : string) (src : Source) (acc : list string) :
  existsb is_all_target targets = false
  \/ parse_all node modname package src = Raised AssertionError ->
  assign_targets targets node modname package src acc
  = Returned (inr (acc ++ target_ids targets)).
Proof.
  intros H. revert acc.
  induction targets as [| t rest IH]; intros acc; simpl.
  - now rewrite app_nil_r.
  - assert (Hrest : existsb is_all_target rest = false
                    \/ parse_all node modname package src = Raised AssertionError).
    { destruct H as [H | H]; [left | now right].
      simpl in H. now apply orb_false_elim in H. }
    destruct t; try (now apply (IH Hrest)).
    destruct (String.eqb id "__all__") eqn:Hid.
    + destruct H as [H | H].
      * simpl in H. rewrite Hid in H. discriminate H.
      * rewrite H. now apply (IH Hrest).
    + rewrite (IH Hrest), <- app_assoc. reflexivity.
Qed.

(** ** The loop over the collected names *)

Lemma append_names_filter (node_names : list string) (modname package : string)
    (src : Source) (underlined : bool) (results : list Name) :
  append_names node_names modname package src underlined results
  = results
    ++ map (record modname package src) (filter (kept underlined) node_names).
Proof.
  revert results.
  induction node_names as [| n rest IH]; intros results; simpl.
  - now rewrite app_nil_r.
  - unfold kept at 1. destruct (underlined || negb (startswith n "_")).
    + rewrite IH, <- app_assoc. reflexivity.
    + apply IH.
Qed.

(** ** The loop over the top-level statements *)

Lemma not_override_collects (targets : list ast.expr) (v : ast.expr)
    (modname package : string) (src : Source) :
  export_list_override (ast.Assign targets v) = false ->
  existsb is_all_target targets = false
  \/ parse_all (ast.Assign targets v) modname package src
     = Raised AssertionError.
Proof.
  intros H.
  destruct (parse_all_assign targets v modname package src)
    as [(elts & names & -> & Hall & _) | [_ Hr]].
  - left. simpl in H. rewrite Hall, andb_true_r in H. exact H.
  - now right.
Qed.

Lemma child_nodes_loop_no_override (nodes : list ast.stmt)
    (modname package : string) (src : Source) (underlined : bool)
    (results : list Name) :
  no_override nodes = true ->
  child_nodes_loop nodes modname package src underlined results
  = Returned (inr (results
                   ++ map (record modname package src)
                        (filter (kept underlined) (flat_map collected nodes)))).
Proof.
  revert results.
  induction nodes as [| node rest IH]; intros results H;
    cbn [child_nodes_loop flat_map].
  - simpl. now rewrite app_nil_r.
  - unfold no_override in H. simpl in H. apply andb_prop in H as [Hn Hrest].
    apply negb_true_iff in Hn.
    rewrite filter_app, map_app, app_assoc.
    destruct node as [targets v | name | name | other].
    + rewrite (assign_targets_collects targets _ modname package src []
                 (not_override_collects targets v modname package src Hn)).
      rewrite (IH _ Hrest), append_names_filter. reflexivity.
    + rewrite (IH _ Hrest), append_names_filter. reflexivity.
    + rewrite (IH _ Hrest), append_names_filter. reflexivity.
    + rewrite (IH _ Hrest), append_names_filter. reflexivity.
Qed.

Lemma override_returns (node : ast.stmt) (modname package : string)
    (src : Source) :
  export_list_override node = true ->
  exists targets v names,
    node = ast.Assign targets v
    /\ existsb is_all_target targets = true
    /\ parse_all node modname package src = Returned names.
Proof.
  intros H. destruct node as [targets v | name | name | other]; try discriminate H.
  destruct v; try discriminate H. simpl in H.
  apply andb_prop in H as [Ht He].
  destruct (parse_all_items_returns elts modname package src [] He)
    as [names Hn].
  exists targets, (ast.List elts), names. now repeat split.
Qed.

Lemma child_nodes_loop_first_override (pre post : list ast.stmt)
    (node : ast.stmt) (modname package : string) (src : Source)
    (underlined : bool) (names results : list Name) :
  no_override pre = true ->
  export_list_override node = true ->
  parse_all node modname package src = Returned names ->
  child_nodes_loop (pre ++ node :: post) modname package src underlined results
  = Returned (inl names).
Proof.
  intros Hpre Hnode Hp. revert results.
  induction pre as [| p pre IH]; intros results; simpl.
  - destruct (override_returns node modname package src Hnode)
      as (targets & v & names' & -> & Ht & _).
    now rewrite (assign_targets_returns targets _ modname package src names []
                   Hp Ht).
  - unfold no_override in Hpre. simpl in Hpre.
    apply andb_prop in Hpre as [Hn Hrest]. apply negb_true_iff in Hn.
    specialize (IH Hrest).
    destruct p as [targets v | name | name | other]; try apply IH.
    rewrite (assign_targets_collects targets _ modname package src []
               (not_override_collects targets v modname package src Hn)).
    apply IH.
Qed.

(** ** [get_names_from_file] once the file is read and parsed *)

Lemma get_names_from_file_parsed (env : Env) (module : path)
    (modname package : string) (src : Source) (only_all underlined : bool)
    (source : string) (root_node : list ast.stmt) :
  open_read env module = Returned source ->
  ast_parse env source = Returned root_node ->
  get_names_from_file env module modname package src only_all underlined
  = ([EvOpen module],
     match child_nodes_loop root_node modname package src underlined [] with
     | Returned (inl names) => Returned names
     | Returned (inr results) => Returned (if only_all then [] else results)
     | Raised e => Raised e
     end).
Proof.
  intros Ho Hp. unfold get_names_from_file, bind, emit, lift, ret; simpl.
  rewrite Ho; simpl. rewrite Hp.
  destruct (child_nodes_loop root_node modname package src underlined [])
    as [[names | results] | e]; simpl; try reflexivity.
  now destruct only_all.
Qed.

Lemma all_target_in (targets : list ast.expr) :
  In (ast.Name "__all__") targets -> existsb is_all_target targets = true.
Proof.
  intros H. apply existsb_exists. exists (ast.Name "__all__"). now split.
Qed.

Lemma target_ids_in (targets : list ast.expr) (id : string) :
  In (ast.Name id) targets -> id <> "__all__" -> In id (target_ids targets).
Proof.
  intros Hin Hne. induction targets as [| t rest IH]; simpl in *.
  - contradiction.
  - destruct Hin as [-> | Hin].
    + destruct (String.eqb_spec id "__all__") as [Heq | _].
      * contradiction.
      * now left.
    + specialize (IH Hin). destruct t; try exact IH.
      destruct (String.eqb id0 "__all__"); [exact IH | now right].
Qed.

(** ** The export-list override (C1) *)




(** ** Privacy filtering (C6) *)

(** Without an override the function returns the collected names that pass
    the privacy test, in declaration order. *)
Lemma get_names_from_file_no_override (env : Env) (module : path)
    (modname package : string) (src : Source) (only_all underlined : bool)
    (source : string) (root_node : list ast.stmt) :
  open_read env module = Returned source ->
  ast_parse env source = Returned root_node ->
  no_override root_node = true ->
  get_names_from_file env module modname package src only_all underlined
  = ([EvOpen module],
     Returned
       (if only_all then []
        else map (record modname package src)
               (filter (kept underlined) (flat_map collected root_node)))).
Proof.
  intros Ho Hp Hn.
  rewrite (get_names_from_file_parsed _ _ _ _ _ _ _ _ _ Ho Hp).
  now rewrite (child_nodes_loop_no_override _ _ _ _ _ [] Hn).
Qed.

Lemma declares_collected_other (node : ast.stmt) (id : string) :
  declares node id -> id <> "__all__" -> In id (collected node).
Proof.
  intros Hd Hne. destruct Hd as [name | name | targets v id Hin]; simpl.
  - now left.
  - now left.
  - now apply target_ids_in.
Qed.

(** C6, as amended: for a file that is read and parsed and holds no
    export-list override, whenever [get_names_from_file] returns: when
    [underlined] is false no returned name starts with an underscore, and
    when [underlined] is true every name declared at top level (a function, a
    class, a plain assignment target), underscore-prefixed or not, is among
    the returned records, the identifier [__all__] apart. *)
Theorem get_names_from_file_privacy_without_override (env : Env)
    (module : path) (modname package : string) (src : Source)
    (underlined : bool) (source : string) (root_node : list ast.stmt)
    (names : list Name) :
  open_read env module = Returned source ->
  ast_parse env source = Returned root_node ->
  no_override root_node = true ->
  result (get_names_from_file env module modname package src false
            underlined) = Returned names ->
  (underlined = false ->
   forall r, In r names -> startswith (name_of_record r) "_" = false)
  /\ (underlined = true ->
      forall node id, In node root_node -> declares node id ->
      id <> "__all__" ->
      In (record modname package src id) names).
Proof.
  intros Ho Hp Hno Hres.
  rewrite (get_names_from_file_no_override _ _ _ _ _ _ _ _ _ Ho Hp Hno)
    in Hres.
  injection Hres as <-. split.
  - intros -> r Hr. apply in_map_iff in Hr as (id & <- & Hid).
    apply filter_In in Hid as [_ Hk]. unfold kept in Hk. simpl in Hk.
    now apply negb_true_iff in Hk.
  - intros -> node id Hin Hd Hne. apply in_map. apply filter_In. split.
    + apply in_flat_map. exists node. split; [exact Hin |].
      now apply declares_collected_other.
    + reflexivity.
Qed.

Lemma get_names_from_file_privacy_without_override_witness :
  (true = false ->
   forall r,
     In r [record "tupled" "tupled" Demo.project "a";
           record "tupled" "tupled" Demo.project "_x"] ->
     startswith (name_of_record r) "_" = false)
  /\ (true = true ->
      forall node id, In node Corner.tupled_tree -> declares node id ->
      id <> "__all__" ->
      In (record "tupled" "tupled" Demo.project id)
        [record "tupled" "tupled" Demo.project "a";
         record "tupled" "tupled" Demo.project "_x"]).
Proof.
  apply (get_names_from_file_privacy_without_override Corner.world
           ["tupled.py"] "tupled" "tupled" Demo.project true
           Corner.src_tupled).
  - reflexivity.
  - reflexivity.
  - reflexivity.
  - reflexivity.
Defined.

(** C6, as first stated, fails on a file that assigns a tuple to [__all__]:
    [tupled.py] holds [__all__ = ('a', 'b')], [def a] and [_x = 1].  A tuple
    is no export-list override, [__all__] is an underscore-prefixed name
    declared at top level, and with [underlined] set the function returns
    [a] and [_x] but not [__all__]. *)
Lemma get_names_from_file_tuple_all_not_returned :
  ast_parse Corner.world Corner.src_tupled = Returned Corner.tupled_tree
  /\ no_override Corner.tupled_tree = true
  /\ declares
       (ast.Assign [ast.Name "__all__"]
          (ast.Tuple [ast.Constant (PyStr "a"); ast.Constant (PyStr "b")]))
       "__all__"
  /\ startswith "__all__" "_" = true
  /\ result (get_names_from_file Corner.world ["tupled.py"] "tupled" "tupled"
               Demo.project false true)
     = Returned [record "tupled" "tupled" Demo.project "a";
                 record "tupled" "tupled" Demo.project "_x"]
  /\ ~ In (record "tupled" "tupled" Demo.project "__all__")
         [record "tupled" "tupled" Demo.project "a";
          record "tupled" "tupled" Demo.project "_x"].
Proof.
  repeat split; try reflexivity.
  - constructor. now left.
  - intros [H | [H | []]]; discriminate H.
Qed.

(** ** The file system *)

Lemma resolve_joinpath (root : fsnode) (p : path) (name : string) :
  resolve root (p // name) = child (resolve root p) name.
Proof. unfold resolve, joinpath. now rewrite fold_left_app. Qed.

Lemma assoc_in (name : string) (entries : list (string * fsnode))
    (node : fsnode) :
  assoc name entries = Some node -> exists node', In (name, node') entries.
Proof.
  induction entries as [| [n x] rest IH]; simpl; intros H.
  - discriminate H.
  - destruct (String.eqb_spec n name) as [-> | _].
    + exists x. now left.
    + destruct (IH H) as [node' Hin]. exists node'. now right.
Qed.

(** A file that exists directly in a directory and is named [*.py] is one
    of the files the glob enumerates. *)
Lemma glob_py_finds (env : Env) (p : path) (name : string) :
  exists_ env (p // name) = true ->
  endswith name ".py" = true ->
  In (p // name) (glob_py env p).
Proof.
  unfold exists_, glob_py. rewrite resolve_joinpath.
  destruct (resolve (fs env) p) as [[content | entries] |]; simpl;
    try discriminate.
  destruct (assoc name entries) as [node |] eqn:Ha; [| discriminate].
  intros _ Hpy. destruct (assoc_in _ _ _ Ha) as [node' Hin].
  apply in_map_iff. exists (name, node'). split; [reflexivity |].
  apply filter_In. now split.
Qed.

Lemma open_read_exists (env : Env) (p : path) (source : string) :
  open_read env p = Returned source -> exists_ env p = true.
Proof.
  unfold open_read, exists_. now destruct (resolve (fs env) p).
Qed.


(** ** What [get_names_from_file] leaves in the trace *)

Lemma get_names_from_file_trace (env : Env) (module : path)
    (modname package : string) (src : Source) (only_all underlined : bool)
    (names : list Name) :
  result (get_names_from_file env module modname package src only_all
            underlined) = Returned names ->
  names <> [] ->
  trace (get_names_from_file env module modname package src only_all
           underlined) = [EvOpen module].
Proof.
  unfold get_names_from_file, bind, emit, lift, ret, raise, result, trace.
  simpl. destruct (open_read env module) as [source | e]; simpl;
    [| discriminate].
  destruct (ast_parse env source) as [root_node | [msg | | | | |]]; simpl;
    try discriminate.
  - destruct (child_nodes_loop root_node modname package src underlined [])
      as [[found | results] | e]; simpl; try discriminate; try reflexivity.
    now destruct only_all.
  - intros H Hne. injection H as <-. now contradiction Hne.
Qed.

(** ** The directory scan of [get_names] *)

Section DirectoryScan.

Variable env : Env.
Variables modname package_name : string.
Variable package_source : Source.
Variable underlined : bool.

Abbreviation extract :=
  (extract_file env modname package_name package_source underlined).

Lemma extend_names_concat (files : list path) (found : list (list Name))
    (names : list Name) :
  Forall2 (fun file ns => result (extract file) = Returned ns) files found ->
  result (extend_names env files modname package_name package_source
            underlined names)
  = Returned (names ++ concat found).
Proof.
  intros H. revert names.
  induction H as [| file ns files found Hfile _ IH]; intros names; simpl.
  - now rewrite app_nil_r.
  - rewrite (result_bind_returned _ _ _ Hfile), IH, <- app_assoc.
    reflexivity.
Qed.

Lemma extract_all (files : list path) :
  (forall file, In file files ->
     exists ns, result (extract file) = Returned ns) ->
  exists found,
    Forall2 (fun file ns => result (extract file) = Returned ns) files found.
Proof.
  induction files as [| file rest IH]; intros H.
  - exists []. constructor.
  - destruct (H file (or_introl eq_refl)) as [ns Hns].
    destruct IH as [found Hfound].
    { intros f Hf. apply H. now right. }
    exists (ns :: found). now constructor.
Qed.


Lemma scan_directory_result (modpath : path) :
  result (scan_directory env modpath modname package_name package_source
            underlined)
  = result (extend_names env (glob_py env modpath) modname package_name
              package_source underlined []).
Proof. reflexivity. Qed.

(** A file with a syntax error adds its diagnostic to the trace and
    nothing to the names; the loop goes on with the files after it. *)
Lemma extend_names_skips (file : path) (rest : list path)
    (names : list Name) (msg : string) :
  extract file = ([EvOpen file; EvPrint msg], Returned []) ->
  extend_names env (file :: rest) modname package_name package_source
    underlined names
  = (EvOpen file :: EvPrint msg
       :: trace (extend_names env rest modname package_name package_source
                   underlined names),
     result (extend_names env rest modname package_name package_source
               underlined names)).
Proof.
  intros H. cbn [extend_names]. unfold extract_file in H. rewrite H.
  unfold bind; simpl. now rewrite app_nil_r.
Qed.

End DirectoryScan.

(** ** The initializer's export list (C4) *)

(** C4: for a directory whose [__init__.py] exists and, extracted with
    [only_all] set, returns a non-empty list of names, [get_names] is that
    extraction and nothing more: it returns the same names, and the only
    thing it does is open the initializer, so no other file of the directory
    is read, whatever the directory holds. *)
Theorem get_names_initializer_export_list (env : Env) (modpath : path)
    (modname package_name : string) (package_source : Source)
    (underlined : bool) (names : list Name) :
  is_dir env modpath = true ->
  exists_ env (modpath // "__init__.py") = true ->
  result (get_names_from_file env (modpath // "__init__.py") modname
            package_name package_source true false) = Returned names ->
  names <> [] ->
  get_names env modpath modname package_name package_source underlined
  = ([EvOpen (modpath // "__init__.py")], Returned names).
Proof.
  intros Hdir Hex Hres Hne. unfold get_names. rewrite Hdir, Hex.
  rewrite (bind_returned _ _ _ Hres).
  rewrite (get_names_from_file_trace _ _ _ _ _ _ _ _ Hres Hne).
  destruct names as [| n names]; [now contradiction Hne | reflexivity].
Qed.

Lemma get_names_initializer_export_list_witness :
  get_names Demo.world ["exported"] "exported" "exported" Demo.project false
  = ([EvOpen (["exported"] // "__init__.py")],
     Returned [record "exported" "exported" Demo.project "foo"]).
Proof.
  apply (get_names_initializer_export_list Demo.world ["exported"] "exported"
           "exported" Demo.project false).
  - reflexivity.
  - reflexivity.
  - reflexivity.
  - discriminate.
Defined.

(** ** The per-file scan (C5) *)

(** When the initializer is absent or yields no name, [get_names] on a
    directory ends as its per-file scan does. *)
Lemma get_names_falls_through (env : Env) (modpath : path)
    (modname package_name : string) (package_source : Source)
    (underlined : bool) :
  is_dir env modpath = true ->
  exists_ env (modpath // "__init__.py") = false
  \/ result (get_names_from_file env (modpath // "__init__.py") modname
               package_name package_source true false) = Returned [] ->
  result (get_names env modpath modname package_name package_source underlined)
  = result (scan_directory env modpath modname package_name package_source
              underlined).
Proof.
  intros Hdir Hinit. unfold get_names. rewrite Hdir.
  destruct (exists_ env (modpath // "__init__.py")) eqn:Hex.
  - destruct Hinit as [Habs | Hempty]; [discriminate Habs |].
    now rewrite (result_bind_returned _ _ _ Hempty).
  - reflexivity.
Qed.

(** C5, as amended: for a directory whose [__init__.py] is absent, or
    extracted with [only_all] set returns no name, when each entry the glob
    [*.py] enumerates in the directory yields its own names (extracted under
    the module name [modname.stem], none of the extractions raising),
    [get_names] returns the concatenation of those lists in the order of the
    enumeration. *)
Theorem get_names_directory_concatenates (env : Env) (modpath : path)
    (modname package_name : string) (package_source : Source)
    (underlined : bool) (found : list (list Name)) :
  is_dir env modpath = true ->
  exists_ env (modpath // "__init__.py") = false
  \/ result (get_names_from_file env (modpath // "__init__.py") modname
               package_name package_source true false) = Returned [] ->
  Forall2
    (fun file ns =>
       result (get_names_from_file env file (modname ++ "." ++ stem file)
                 package_name package_source false underlined) = Returned ns)
    (glob_py env modpath) found ->
  result (get_names env modpath modname package_name package_source underlined)
  = Returned (concat found).
Proof.
  intros Hdir Hinit Hfiles.
  rewrite (get_names_falls_through _ _ _ _ _ _ Hdir Hinit).
  rewrite scan_directory_result.
  now rewrite (extend_names_concat env modname package_name package_source
                 underlined _ found []).
Qed.

Lemma get_names_directory_concatenates_witness :
  result (get_names Demo.world ["plain"] "plain" "plain" Demo.project false)
  = Returned (concat [[]; []; [record "plain.extra" "plain" Demo.project "baz"]]).
Proof.
  apply (get_names_directory_concatenates Demo.world ["plain"] "plain" "plain"
           Demo.project false).
  - reflexivity.
  - right. reflexivity.
  - repeat constructor.
Defined.

(** C5, as first stated, fails when an entry of the directory cannot be
    extracted: the directory [odd] has no initializer and holds the source
    files [a.py] and [z.py], both of which yield names, and a sub-directory
    named [weird.py].  The glob enumerates all three; opening [weird.py]
    raises, and [get_names] raises with it instead of returning the names of
    [a.py] and [z.py]. *)
Lemma get_names_directory_entry_raises :
  is_dir Corner.world ["odd"] = true
  /\ exists_ Corner.world (["odd"] // "__init__.py") = false
  /\ glob_py Corner.world ["odd"]
     = [["odd"; "a.py"]; ["odd"; "weird.py"]; ["odd"; "z.py"]]
  /\ is_dir Corner.world ["odd"; "weird.py"] = true
  /\ result (get_names_from_file Corner.world ["odd"; "a.py"] "odd.a" "odd"
               Demo.project false false)
     = Returned [record "odd.a" "odd" Demo.project "baz"]
  /\ result (get_names_from_file Corner.world ["odd"; "z.py"] "odd.z" "odd"
               Demo.project false false)
     = Returned [record "odd.z" "odd" Demo.project "foo";
                 record "odd.z" "odd" Demo.project "Bar"]
  /\ get_names Corner.world ["odd"] "odd" "odd" Demo.project false
     = ([EvGlob ["odd"]; EvOpen ["odd"; "a.py"]; EvOpen ["odd"; "weird.py"]],
        Raised (OSError "IsADirectoryError")).
Proof. repeat split; reflexivity. Qed.

(** ** The initializer in the per-file scan (C10) *)




(** ** Files that do not parse (C7) *)

(** C7, as amended: for a file that is read but does not parse
    ([ast.parse] raises [SyntaxError]), [get_names_from_file] opens the
    file, prints the error and returns the empty list; and the scan of a
    directory that meets such a file goes on with the files after it, its
    names so far unchanged. *)
Theorem get_names_from_file_syntax_error (env : Env) (module : path)
    (modname package : string) (src : Source) (only_all underlined : bool)
    (source msg : string) :
  open_read env module = Returned source ->
  ast_parse env source = Raised (SyntaxError msg) ->
  get_names_from_file env module modname package src only_all underlined
  = ([EvOpen module; EvPrint msg], Returned [])
  /\ forall (rest : list path) (dirname : string) (names : list Name),
       extend_names env (module :: rest) dirname package src underlined names
       = (EvOpen module :: EvPrint msg
            :: trace (extend_names env rest dirname package src underlined
                        names),
          result (extend_names env rest dirname package src underlined names)).
Proof.
  intros Ho Hp.
  assert (H : forall mn oa,
             get_names_from_file env module mn package src oa underlined
             = ([EvOpen module; EvPrint msg], Returned [])).
  { intros mn oa. unfold get_names_from_file, bind, emit, lift, ret; simpl.
    rewrite Ho; simpl. rewrite Hp. reflexivity. }
  split; [apply H |].
  intros rest dirname names. apply extend_names_skips. apply H.
Qed.

Lemma get_names_from_file_syntax_error_witness :
  get_names_from_file Demo.world ["plain"; "broken.py"] "plain.broken" "plain"
    Demo.project false false
  = ([EvOpen ["plain"; "broken.py"];
      EvPrint "invalid syntax (<unknown>, line 1)"], Returned [])
  /\ forall (rest : list path) (dirname : string) (names : list Name),
       extend_names Demo.world (["plain"; "broken.py"] :: rest) dirname "plain"
         Demo.project false names
       = (EvOpen ["plain"; "broken.py"]
            :: EvPrint "invalid syntax (<unknown>, line 1)"
            :: trace (extend_names Demo.world rest dirname "plain"
                        Demo.project false names),
          result (extend_names Demo.world rest dirname "plain" Demo.project
                    false names)).
Proof.
  apply (get_names_from_file_syntax_error Demo.world ["plain"; "broken.py"]
           "plain.broken" "plain" Demo.project false false Demo.src_broken).
  - reflexivity.
  - reflexivity.
Defined.

(** C7, as first stated, fails on an unreadable file: [secret.py] in the
    directory [locked] cannot be read.  [get_names_from_file] prints nothing
    and returns nothing, it raises; the scan of the directory ends there
    with the same exception, and the file after it, [extra.py], is never
    opened. *)
Lemma get_names_from_file_unreadable_raises :
  open_read Demo.world ["locked"; "secret.py"]
  = Raised (OSError "Permission denied")
  /\ get_names_from_file Demo.world ["locked"; "secret.py"] "locked.secret"
       "locked" Demo.project false false
     = ([EvOpen ["locked"; "secret.py"]], Raised (OSError "Permission denied"))
  /\ glob_py Demo.world ["locked"]
     = [["locked"; "secret.py"]; ["locked"; "extra.py"]]
  /\ get_names Demo.world ["locked"] "locked" "locked" Demo.project false
     = ([EvGlob ["locked"]; EvOpen ["locked"; "secret.py"]],
        Raised (OSError "Permission denied"))
  /\ find_all_names_in_package Demo.world ["locked"] false None false
     = ([EvGlob ["locked"]; EvOpen ["locked"; "secret.py"]],
        Raised (OSError "Permission denied")).
Proof. repeat split; reflexivity. Qed.

(** ** The reflective extractor (C8, C9) *)

Lemma in_banned_spec (package : string) :
  in_banned package = true <-> In package banned.
Proof.
  unfold in_banned. rewrite existsb_exists. split.
  - intros (x & Hin & Heq). apply String.eqb_eq in Heq. now subst.
  - intros Hin. exists package. split; [exact Hin | apply String.eqb_refl].
Qed.

(** C9: for a module name in the deny-list, and for a module name that
    starts with an underscore while [underlined] is false,
    [get_names_from_compiled] returns the empty list and its trace is empty:
    it has not tried to import the module. *)
Theorem get_names_from_compiled_denied (env : Env) (package : string)
    (source : Source) (underlined : bool) :
  In package banned
  \/ (startswith package "_" = true /\ underlined = false) ->
  trace (get_names_from_compiled env package source underlined) = []
  /\ result (get_names_from_compiled env package source underlined)
     = Returned [].
Proof.
  intros H. unfold get_names_from_compiled.
  assert (Hguard : in_banned package
                   || (startswith package "_" && negb underlined) = true).
  { destruct H as [Hb | [Hp ->]].
    - apply in_banned_spec in Hb. now rewrite Hb.
    - rewrite Hp. apply orb_true_r. }
  rewrite Hguard. now split.
Qed.

Lemma get_names_from_compiled_denied_witness :
  (trace (get_names_from_compiled Demo.world "builtins" Demo.project true) = []
   /\ result (get_names_from_compiled Demo.world "builtins" Demo.project true)
      = Returned [])
  /\ (trace (get_names_from_compiled Demo.world "_thread" Demo.project false)
      = []
      /\ result (get_names_from_compiled Demo.world "_thread" Demo.project
                   false) = Returned []).
Proof.
  split.
  - apply (get_names_from_compiled_denied Demo.world "builtins" Demo.project
             true).
    left. simpl. now left.
  - apply (get_names_from_compiled_denied Demo.world "_thread" Demo.project
             false).
    right. split; reflexivity.
Defined.

(** C8, as amended: for a module name that is neither deny-listed nor
    skipped for privacy, when importing the module raises [ImportError],
    [get_names_from_compiled] tries the import once and returns the empty
    list; the exception does not reach the caller. *)
Theorem get_names_from_compiled_import_error (env : Env) (package : string)
    (source : Source) (underlined : bool) (msg : string) :
  ~ In package banned ->
  startswith package "_" = false \/ underlined = true ->
  import_module env package = Raised (ImportError msg) ->
  get_names_from_compiled env package source underlined
  = ([EvImport package], Returned []).
Proof.
  intros Hnb Hpriv Himp. unfold get_names_from_compiled.
  assert (Hguard : in_banned package
                   || (startswith package "_" && negb underlined) = false).
  { apply orb_false_intro.
    - destruct (in_banned package) eqn:Hb; [| reflexivity].
      apply in_banned_spec in Hb. contradiction.
    - destruct Hpriv as [-> | ->]; [reflexivity | apply andb_false_r]. }
  rewrite Hguard, Himp. reflexivity.
Qed.

Lemma get_names_from_compiled_import_error_witness :
  get_names_from_compiled Demo.world "nowhere" Demo.project false
  = ([EvImport "nowhere"], Returned []).
Proof.
  apply (get_names_from_compiled_import_error Demo.world "nowhere"
           Demo.project false ("No module named " ++ "nowhere")).
  - intros [H | [H | []]]; discriminate H.
  - left. reflexivity.
  - reflexivity.
Defined.

(** C8, as first stated, fails when the import raises anything else: the
    module [broken_ext] is neither deny-listed nor underscore-prefixed, its
    import raises a [RuntimeError], and [get_names_from_compiled] raises it
    to its caller. *)
Lemma get_names_from_compiled_other_failure_raises :
  in_banned "broken_ext" = false
  /\ startswith "broken_ext" "_" = false
  /\ import_module Demo.world "broken_ext"
     = Raised (OtherException "RuntimeError" "initialisation failed")
  /\ get_names_from_compiled Demo.world "broken_ext" Demo.project false
     = ([EvImport "broken_ext"],
        Raised (OtherException "RuntimeError" "initialisation failed")).
Proof. repeat split; reflexivity. Qed.

(** ** The orchestrator (C2, C3) *)

(** C3, as amended: for a package root classified as a compiled extension,
    [find_all_names_in_package] returns the empty list and does nothing
    else: it opens no file, walks no directory and imports no module. *)
Theorem find_all_names_in_package_compiled (env : Env) (package_path : path)
    (recursive : bool) (package_source : option Source) (underlined : bool)
    (package_name : string) :
  get_package_name_from_path env package_path = Some (package_name, COMPILED) ->
  find_all_names_in_package env package_path recursive package_source
    underlined
  = ([], Returned []).
Proof.
  intros H. unfold find_all_names_in_package. rewrite H. reflexivity.
Qed.

Lemma find_all_names_in_package_compiled_witness :
  find_all_names_in_package Demo.world ["math.so"] true None false
  = ([], Returned []).
Proof.
  apply (find_all_names_in_package_compiled Demo.world ["math.so"] true None
           false "math").
  reflexivity.
Defined.

(** C3, as first stated, fails: [math.so] is classified as the compiled
    extension [math]; [get_names_from_compiled] imports it and finds [sin],
    while [find_all_names_in_package] imports nothing and returns nothing. *)
Lemma find_all_names_in_package_does_not_reflect :
  get_package_name_from_path Demo.world ["math.so"] = Some ("math", COMPILED)
  /\ get_names_from_compiled Demo.world "math" Demo.project false
     = ([EvImport "math"], Returned [record "math" "math" Demo.project "sin"])
  /\ find_all_names_in_package Demo.world ["math.so"] true (Some Demo.project)
       false
     = ([], Returned []).
Proof. repeat split; reflexivity. Qed.

(** With [underlined] set, the exclusion test of the recursive enumeration
    holds for every submodule: none is kept. *)
Lemma submodules_loop_underlined (env : Env) (subs : list path)
    (package_path : path) (modules : list (path * string)) :
  submodules_loop env subs package_path true modules = modules.
Proof.
  revert modules. induction subs as [| sub rest IH]; intros modules; simpl.
  - reflexivity.
  - apply IH.
Qed.

(** C2 fails on the code.  The package [plain] has one submodule, named
    [plain], with no underscore anywhere in its name: the recursive
    enumeration keeps it when [underlined] is false and drops it when
    [underlined] is true, so that asking for private names returns nothing
    at all.  The package [my_pkg] has one submodule, [my_pkg], none of whose
    dotted segments starts with an underscore: it is dropped when
    [underlined] is false, because its name contains an underscore. *)
Theorem find_all_names_in_package_exclusion_inverted :
  submodules_loop Demo.world (submodules Demo.world ["plain"]) ["plain"] false []
  = [(["plain"], "plain")]
  /\ submodules_loop Demo.world (submodules Demo.world ["plain"]) ["plain"] true
       []
     = []
  /\ result (find_all_names_in_package Demo.world ["plain"] true None false)
     = Returned [record "plain.extra" "plain" Demo.project "baz"]
  /\ find_all_names_in_package Demo.world ["plain"] true None true
     = ([EvSubmodules ["plain"]], Returned [])
  /\ get_modname_from_path Demo.world ["my_pkg"] ["my_pkg"] = "my_pkg"
  /\ submodules_loop Demo.world (submodules Demo.world ["my_pkg"]) ["my_pkg"]
       false []
     = []
  /\ find_all_names_in_package Demo.world ["my_pkg"] true None false
     = ([EvSubmodules ["my_pkg"]], Returned []).
Proof. repeat split; reflexivity. Qed.

(** ** Further properties of the code *)

(** X1: the recursive enumeration keeps exactly the submodules for which its
    test fails: none when [underlined] is set, and otherwise those whose
    dotted name contains no underscore at all, in the order of the
    enumeration. *)
Theorem submodules_loop_keeps (env : Env) (subs : list path)
    (package_path : path) (underlined : bool)
    (modules : list (path * string)) :
  submodules_loop env subs package_path underlined modules
  = modules
    ++ map (fun sub => (sub, get_modname_from_path env sub package_path))
         (filter
            (fun sub =>
               negb underlined
               && negb (contains (get_modname_from_path env sub package_path)
                          "_"))
            subs).
Proof.
  revert modules. induction subs as [| sub rest IH]; intros modules; simpl.
  - now rewrite app_nil_r.
  - rewrite <- negb_orb.
    destruct (underlined
              || contains (get_modname_from_path env sub package_path) "_");
      simpl.
    + apply IH.
    + rewrite IH, <- app_assoc. reflexivity.
Qed.

(** X2: an assignment to [__all__] of anything that is not a list literal
    (a tuple, a name, a call, a sum of lists) is passed over in silence: the
    assertion that [parse_all] fails is caught by the loop over the targets,
    the statement contributes no name, not even [__all__], and the walk goes
    on with the statements after it. *)
Theorem child_nodes_loop_non_list_all_skipped (v : ast.expr)
    (rest : list ast.stmt) (modname package : string) (src : Source)
    (underlined : bool) (results : list Name) :
  (forall elts, v <> ast.List elts) ->
  child_nodes_loop (ast.Assign [ast.Name "__all__"] v :: rest)
    modname package src underlined results
  = child_nodes_loop rest modname package src underlined results.
Proof.
  intros Hv. destruct v; try reflexivity.
  now contradiction (Hv elts).
Qed.

Lemma child_nodes_loop_non_list_all_skipped_witness :
  child_nodes_loop
    (ast.Assign [ast.Name "__all__"]
       (ast.Tuple [ast.Constant (PyStr "a"); ast.Constant (PyStr "b")])
     :: [ast.FunctionDef "f"])
    "m" "m" Demo.project true []
  = child_nodes_loop [ast.FunctionDef "f"] "m" "m" Demo.project true [].
Proof.
  apply (child_nodes_loop_non_list_all_skipped
           (ast.Tuple [ast.Constant (PyStr "a"); ast.Constant (PyStr "b")])).
  intros elts H. discriminate H.
Defined.



(** ** The reflective extractor on a module that loads *)


Lemma members_loop_filter (members : list (string * member_kind))
    (package : string) (source : Source) (underlined : bool)
    (results : list Name) :
  members_loop members package source underlined results
  = results
    ++ map (fun member => record package package source (fst member))
         (filter (member_kept underlined) members).
Proof.
  revert results.
  induction members as [| [name kind] rest IH]; intros results; simpl.
  - now rewrite app_nil_r.
  - unfold member_kept at 1, kept. simpl.
    destruct (underlined || negb (startswith name "_")); simpl.
    + destruct (is_class_or_callable kind).
      * rewrite IH, <- app_assoc. reflexivity.
      * apply IH.
    + apply IH.
Qed.

Lemma compiled_guard_open (package : string) (underlined : bool) :
  ~ In package banned ->
  startswith package "_" = false \/ underlined = true ->
  in_banned package || (startswith package "_" && negb underlined) = false.
Proof.
  intros Hnb Hpriv. apply orb_false_intro.
  - destruct (in_banned package) eqn:Hb; [| reflexivity].
    apply in_banned_spec in Hb. contradiction.
  - destruct Hpriv as [-> | ->]; [reflexivity | apply andb_false_r].
Qed.



(** X5: when the imported module has no [__all__], the reflective extractor
    returns, in the order of [inspect.getmembers], one record for each member
    that is a class, a function or a builtin and whose name passes the
    privacy test; a member that is plain data is never returned. *)
Theorem get_names_from_compiled_members (env : Env) (package : string)
    (source : Source) (underlined : bool) (module : pymodule) :
  ~ In package banned ->
  startswith package "_" = false \/ underlined = true ->
  import_module env package = Returned module ->
  module_all module = None ->
  get_names_from_compiled env package source underlined
  = ([EvImport package],
     Returned
       (map (fun member => record package package source (fst member))
          (filter (member_kept underlined) (getmembers module)))).
Proof.
  intros Hnb Hpriv Himp Hall. unfold get_names_from_compiled.
  rewrite (compiled_guard_open _ _ Hnb Hpriv), Himp, Hall, members_loop_filter.
  reflexivity.
Qed.

Lemma get_names_from_compiled_members_witness :
  get_names_from_compiled Samples.world "socket" Demo.project false
  = ([EvImport "socket"],
     Returned
       (map (fun member => record "socket" "socket" Demo.project (fst member))
          (filter (member_kept false) (getmembers Samples.socket_module)))).
Proof.
  apply (get_names_from_compiled_members Samples.world "socket" Demo.project
           false Samples.socket_module).
  - intros [H | [H | []]]; discriminate H.
  - left. reflexivity.
  - reflexivity.
  - reflexivity.
Defined.

(** X6: whatever it is given, the reflective extractor touches no file; it
    either does nothing or attempts one import, of the module it was asked
    for. *)
Theorem get_names_from_compiled_trace (env : Env) (package : string)
    (source : Source) (underlined : bool) :
  trace (get_names_from_compiled env package source underlined) = []
  \/ trace (get_names_from_compiled env package source underlined)
     = [EvImport package].
Proof.
  unfold get_names_from_compiled.
  destruct (in_banned package || (startswith package "_" && negb underlined)).
  - now left.
  - right. unfold bind, emit, trace; simpl.
    destruct (import_module env package) as [module | []]; simpl;
      try reflexivity.
    now destruct (module_all module).
Qed.

(** ** The walk over the syntax tree never raises *)

Lemma assign_targets_returned (targets ts : list ast.expr) (v : ast.expr)
    (modname package : string) (src : Source) (acc : list string) :
  exists r,
    assign_targets targets (ast.Assign ts v) modname package src acc
    = Returned r.
Proof.
  revert acc.
  induction targets as [| t rest IH]; intros acc; cbn [assign_targets].
  - now eexists.
  - destruct t; try apply IH.
    destruct (String.eqb id "__all__"); [| apply IH].
    destruct (parse_all_assign ts v modname package src)
      as [(elts & names & _ & _ & Hr) | [_ Hr]]; rewrite Hr.
    + now eexists.
    + apply IH.
Qed.

Lemma child_nodes_loop_returned (nodes : list ast.stmt)
    (modname package : string) (src : Source) (underlined : bool)
    (results : list Name) :
  exists r,
    child_nodes_loop nodes modname package src underlined results = Returned r.
Proof.
  revert results.
  induction nodes as [| node rest IH]; intros results;
    cbn [child_nodes_loop].
  - now eexists.
  - destruct node as [targets v | name | name | other]; try apply IH.
    destruct (assign_targets_returned targets targets v modname package src [])
      as [[names | node_names] Hr]; rewrite Hr.
    + now eexists.
    + apply IH.
Qed.

(** X7: when the file can be read, the parser raises nothing but
    [SyntaxError] and every constant listed in a top-level list literal has a
    [str()], [get_names_from_file] returns a list of names.  The assertions
    it makes while walking the tree (on targets that are no plain names, on
    an [__all__] that is no list of constants) are all caught: no shape of
    the syntax tree makes it raise.  (An [int] too long for [str()] in an
    export list does: [ValueError] is not among the exceptions caught.) *)
Theorem get_names_from_file_returns (env : Env) (module : path)
    (modname package : string) (src : Source) (only_all underlined : bool)
    (source : string) :
  open_read env module = Returned source ->
  (forall e, ast_parse env source = Raised e -> exists msg, e = SyntaxError msg) ->
  (forall root_node,
     ast_parse env source = Returned root_node ->
     constants_render root_node = true) ->
  exists names,
    result (get_names_from_file env module modname package src only_all
              underlined) = Returned names.
Proof.
  intros Ho Hparse _.
  destruct (ast_parse env source) as [root_node | e] eqn:Hp.
  - rewrite (get_names_from_file_parsed _ _ _ _ _ _ _ _ _ Ho Hp).
    destruct (child_nodes_loop_returned root_node modname package src
                underlined []) as [[names | results] Hr];
      rewrite Hr; now eexists.
  - destruct (Hparse e eq_refl) as [msg ->].
    unfold get_names_from_file, bind, emit, lift, ret, result; simpl.
    rewrite Ho; simpl. rewrite Hp. now eexists.
Qed.

Lemma get_names_from_file_returns_witness :
  exists names,
    result (get_names_from_file Samples.world ["mixed.py"] "mixed" "mixed"
              Demo.project false false) = Returned names.
Proof.
  apply (get_names_from_file_returns Samples.world ["mixed.py"] "mixed"
           "mixed" Demo.project false false Samples.src_mixed).
  - reflexivity.
  - intros e H. vm_compute in H. discriminate H.
  - intros root_node H. vm_compute in H. injection H as <-. reflexivity.
Defined.

(** ** Export lists of other shapes *)

(** X8: the items of an export list need not be strings.  When the first
    export-list override of a file lists the constants [values], and every
    constant listed in the file has a [str()], the names returned are
    [str(value)] for each of them, in order: a number or [None] in [__all__]
    comes back as the name ["1"] or ["None"]. *)
Theorem get_names_from_file_export_list_constants (env : Env) (module : path)
    (modname package : string) (src : Source) (only_all underlined : bool)
    (source : string) (pre post : list ast.stmt) (targets : list ast.expr)
    (values : list pyvalue) :
  open_read env module = Returned source ->
  ast_parse env source
  = Returned (pre ++ ast.Assign targets (ast.List (map ast.Constant values))
              :: post) ->
  constants_render
    (pre ++ ast.Assign targets (ast.List (map ast.Constant values)) :: post)
  = true ->
  In (ast.Name "__all__") targets ->
  no_override pre = true ->
  get_names_from_file env module modname package src only_all underlined
  = ([EvOpen module],
     Returned (map (fun v => record modname package src (py_str v)) values)).
Proof.
  intros Ho Hp _ Hin Hpre.
  rewrite (get_names_from_file_parsed _ _ _ _ _ _ _ _ _ Ho Hp).
  rewrite (child_nodes_loop_first_override pre post _ modname package src
             underlined
             (map (fun v => record modname package src (py_str v)) values) []);
    try assumption; try reflexivity.
  - simpl. rewrite (all_target_in _ Hin). simpl.
    apply forallb_forall. intros e He. apply in_map_iff in He as (s & <- & _).
    reflexivity.
  - simpl. now rewrite parse_all_items_constants.
Qed.

Lemma get_names_from_file_export_list_constants_witness :
  get_names_from_file Samples.world ["nums.py"] "nums" "nums" Demo.project
    false false
  = ([EvOpen ["nums.py"]],
     Returned
       (map (fun v => record "nums" "nums" Demo.project (py_str v))
          [PyInt 1; PyNone; PyStr "x"])).
Proof.
  apply (get_names_from_file_export_list_constants Samples.world ["nums.py"]
           "nums" "nums" Demo.project false false Samples.src_nums [] []
           [ast.Name "__all__"]).
  - reflexivity.
  - reflexivity.
  - vm_compute. reflexivity.
  - simpl. now left.
  - reflexivity.
Defined.



Lemma target_ids_no_names (targets : list ast.expr) :
  (forall id, ~ In (ast.Name id) targets) ->
  existsb is_all_target targets = false /\ target_ids targets = [].
Proof.
  induction targets as [| t rest IH]; intros H; simpl.
  - now split.
  - assert (Hrest : forall id, ~ In (ast.Name id) rest).
    { intros id Hin. apply (H id). now right. }
    destruct (IH Hrest) as [He Ht].
    destruct t; try (now split).
    exfalso. apply (H id). now left.
Qed.

(** X10: an assignment none of whose targets is a plain name (an unpacking
    into a tuple or a list, an attribute, a subscript) contributes no name
    and raises nothing: the walk goes on with the next statement. *)
Theorem child_nodes_loop_no_name_target_skipped (targets : list ast.expr)
    (v : ast.expr) (rest : list ast.stmt) (modname package : string)
    (src : Source) (underlined : bool) (results : list Name) :
  (forall id, ~ In (ast.Name id) targets) ->
  child_nodes_loop (ast.Assign targets v :: rest) modname package src
    underlined results
  = child_nodes_loop rest modname package src underlined results.
Proof.
  intros H. destruct (target_ids_no_names targets H) as [He Ht].
  cbn [child_nodes_loop].
  rewrite (assign_targets_collects targets _ modname package src []
             (or_introl He)).
  rewrite Ht. reflexivity.
Qed.

Lemma child_nodes_loop_no_name_target_skipped_witness :
  child_nodes_loop
    (ast.Assign [ast.Tuple [ast.Name "a"; ast.Name "b"]]
       (ast.Tuple [ast.Constant (PyInt 1); ast.Constant (PyInt 2)])
     :: [ast.FunctionDef "f"])
    "unpack" "unpack" Demo.project false []
  = child_nodes_loop [ast.FunctionDef "f"] "unpack" "unpack" Demo.project
      false [].
Proof.
  apply (child_nodes_loop_no_name_target_skipped
           [ast.Tuple [ast.Name "a"; ast.Name "b"]]).
  intros id [H | []]. discriminate H.
Defined.

(** ** What every record carries *)

Lemma result_bind_inv {A B : Type} (m : Py A) (k : A -> Py B) (b : B) :
  result (bind m k) = Returned b ->
  exists a, result m = Returned a /\ result (k a) = Returned b.
Proof.
  unfold bind, result. destruct (snd m) as [a | e]; simpl; intros H.
  - now exists a.
  - discriminate H.
Qed.

Section Tagged.

Variables modname package : string.
Variable src : Source.

(** The record names [modname] as its module, [package] as its package and
    the value of [src] as its provenance. *)
Abbreviation tagged :=
  (fun r : Name =>
     module_of_record r = modname /\ package_of_record r = package
     /\ source_of_record r = value src).

Lemma record_tagged (name : string) : tagged (record modname package src name).
Proof. now repeat split. Qed.

Lemma parse_all_items_tagged (elts : list ast.expr) (acc names : list Name) :
  Forall tagged acc ->
  parse_all_items elts modname package src acc = Returned names ->
  Forall tagged names.
Proof.
  revert acc. induction elts as [| item rest IH]; intros acc Hacc H; simpl in H.
  - now injection H as <-.
  - destruct item as [| v | | | | | |]; try discriminate H.
    apply IH in H; [exact H |].
    apply Forall_app. split; [exact Hacc |].
    constructor; [apply (record_tagged (py_str v)) | constructor].
Qed.

Lemma assign_targets_tagged (targets ts : list ast.expr) (v : ast.expr)
    (acc : list string) (names : list Name) :
  assign_targets targets (ast.Assign ts v) modname package src acc
  = Returned (inl names) ->
  Forall tagged names.
Proof.
  revert acc.
  induction targets as [| t rest IH]; intros acc H; cbn [assign_targets] in H.
  - discriminate H.
  - destruct t; try (now apply IH in H).
    destruct (String.eqb id "__all__"); [| now apply IH in H].
    destruct (parse_all (ast.Assign ts v) modname package src)
      as [found | e] eqn:Hp.
    + injection H as <-. simpl in Hp.
      destruct v; try discriminate Hp.
      now apply (parse_all_items_tagged elts [] found (Forall_nil _)).
    + destruct e; try discriminate H; now apply IH in H.
Qed.

Lemma append_names_tagged (node_names : list string) (underlined : bool)
    (results : list Name) :
  Forall tagged results ->
  Forall tagged
    (append_names node_names modname package src underlined results).
Proof.
  intros H. rewrite append_names_filter. apply Forall_app. split; [exact H |].
  apply Forall_forall. intros r Hr. apply in_map_iff in Hr as (name & <- & _).
  apply record_tagged.
Qed.

Lemma child_nodes_loop_tagged (nodes : list ast.stmt) (underlined : bool)
    (results : list Name) (r : list Name + list Name) :
  Forall tagged results ->
  child_nodes_loop nodes modname package src underlined results = Returned r ->
  Forall tagged (match r with inl names => names | inr found => found end).
Proof.
  revert results.
  induction nodes as [| node rest IH]; intros results Hres H;
    cbn [child_nodes_loop] in H.
  - now injection H as <-.
  - destruct node as [targets v | name | name | other];
      try (apply IH in H; [exact H | now apply append_names_tagged]).
    destruct (assign_targets targets (ast.Assign targets v) modname package
                src []) as [[names | node_names] | e] eqn:Ha;
      try discriminate H.
    + injection H as <-. now apply assign_targets_tagged in Ha.
    + apply IH in H; [exact H | now apply append_names_tagged].
Qed.

(** Every record [get_names_from_file] returns carries the module name, the
    package name and the provenance it was called with. *)
Lemma get_names_from_file_tagged (env : Env) (module : path)
    (only_all underlined : bool) (names : list Name) :
  result (get_names_from_file env module modname package src only_all
            underlined) = Returned names ->
  Forall tagged names.
Proof.
  unfold get_names_from_file, bind, emit, lift, ret, raise, result; simpl.
  destruct (open_read env module) as [source | e]; simpl; [| discriminate].
  destruct (ast_parse env source) as [root_node | [msg | | | | |]]; simpl;
    try discriminate.
  - destruct (child_nodes_loop root_node modname package src underlined [])
      as [r | e] eqn:Hl; simpl; [| discriminate].
    pose proof (child_nodes_loop_tagged _ _ _ _ (Forall_nil _) Hl) as Ht.
    destruct r as [found | found]; simpl.
    + now intros [= <-].
    + destruct only_all; simpl; intros [= <-]; [constructor | exact Ht].
  - intros [= <-]. constructor.
Qed.

End Tagged.

Lemma extend_names_tagged (env : Env) (dir : list path) (files : list path)
    (modname package_name : string) (src : Source) (underlined : bool)
    (acc names : list Name) (good : Name -> Prop) :
  (forall file r,
     In file dir ->
     module_of_record r = (modname ++ "." ++ stem file)%string
     /\ package_of_record r = package_name
     /\ source_of_record r = value src ->
     good r) ->
  incl files dir ->
  Forall good acc ->
  result (extend_names env files modname package_name src underlined acc)
  = Returned names ->
  Forall good names.
Proof.
  intros Hgood. revert acc.
  induction files as [| file rest IH]; intros acc Hincl Hacc H;
    cbn [extend_names] in H.
  - now injection H as <-.
  - apply result_bind_inv in H as (found & Hfound & H).
    apply IH in H; [exact H | | ].
    + intros f Hf. apply Hincl. now right.
    + apply Forall_app. split; [exact Hacc |].
      apply get_names_from_file_tagged in Hfound.
      apply Forall_forall. intros r Hr.
      apply (Hgood file); [apply Hincl; now left |].
      now apply (proj1 (Forall_forall _ _) Hfound).
Qed.

Lemma get_names_tagged (env : Env) (modpath : path)
    (modname package_name : string) (package_source : Source)
    (underlined : bool) (names : list Name) :
  result (get_names env modpath modname package_name package_source
            underlined) = Returned names ->
  Forall
    (fun r =>
       package_of_record r = package_name
       /\ source_of_record r = value package_source
       /\ (module_of_record r = modname
           \/ exists file,
                In file (glob_py env modpath)
                /\ module_of_record r
                   = (modname ++ "." ++ stem file)%string))
    names.
Proof.
  set (good := fun r : Name => _ /\ _ /\ (_ \/ _)).
  assert (Hplain : forall module only_all found,
             result (get_names_from_file env module modname package_name
                       package_source only_all underlined) = Returned found ->
             Forall good found).
  { intros module only_all found Hf.
    apply get_names_from_file_tagged in Hf.
    apply Forall_forall. intros r Hr.
    destruct (proj1 (Forall_forall _ _) Hf r Hr) as (Hm & Hp & Hs).
    repeat split; try assumption. now left. }
  assert (Hinit : forall found,
             result (get_names_from_file env (modpath // "__init__.py") modname
                       package_name package_source true false)
             = Returned found ->
             Forall good found).
  { intros found Hf. apply get_names_from_file_tagged in Hf.
    apply Forall_forall. intros r Hr.
    destruct (proj1 (Forall_forall _ _) Hf r Hr) as (Hm & Hp & Hs).
    repeat split; try assumption. now left. }
  assert (Hscan : forall found,
             result (scan_directory env modpath modname package_name
                       package_source underlined) = Returned found ->
             Forall good found).
  { intros found Hf. rewrite scan_directory_result in Hf.
    apply (extend_names_tagged env (glob_py env modpath) _ _ _ _ _ [] found
             good) in Hf; try assumption.
    - intros file r Hin (Hm & Hp & Hs). repeat split; try assumption.
      right. now exists file.
    - apply incl_refl.
    - constructor. }
  unfold get_names.
  destruct (is_dir env modpath).
  - destruct (exists_ env (modpath // "__init__.py")).
    + intros H. apply result_bind_inv in H as (found & Hfound & H).
      destruct (0 <? length found)%nat.
      * injection H as <-. now apply Hinit.
      * now apply Hscan.
    + apply Hscan.
  - destruct (String.eqb (suffix modpath) ".py").
    + apply Hplain.
    + intros [= <-]. constructor.
Qed.

(** X11: every record [get_names] returns carries the package name and the
    provenance it was called with.  Its defining module is either the module
    name it was called with (a single file, or the export list of an
    initializer) or that name followed by a dot and the stem of one of the
    [*.py] files directly in the directory. *)
Theorem get_names_records (env : Env) (modpath : path)
    (modname package_name : string) (package_source : Source)
    (underlined : bool) (names : list Name) :
  result (get_names env modpath modname package_name package_source
            underlined) = Returned names ->
  Forall
    (fun r =>
       package_of_record r = package_name
       /\ source_of_record r = value package_source
       /\ (module_of_record r = modname
           \/ exists file,
                In file (glob_py env modpath)
                /\ module_of_record r
                   = (modname ++ "." ++ stem file)%string))
    names.
Proof. apply get_names_tagged. Qed.

Lemma get_names_records_witness :
  Forall
    (fun r =>
       package_of_record r = "tree"
       /\ source_of_record r = value Demo.project
       /\ (module_of_record r = "tree"
           \/ exists file,
                In file (glob_py Samples.world ["tree"])
                /\ module_of_record r = ("tree" ++ "." ++ stem file)%string))
    [record "tree.top" "tree" Demo.project "baz"].
Proof.
  apply (get_names_records Samples.world ["tree"] "tree" "tree" Demo.project
           false).
  reflexivity.
Defined.

Lemma modules_loop_tagged (env : Env) (modules : list (path * string))
    (package_name : string) (src : Source) (underlined : bool)
    (acc names : list Name) :
  Forall
    (fun r => package_of_record r = package_name
              /\ source_of_record r = value src) acc ->
  result (modules_loop env modules package_name src underlined acc)
  = Returned names ->
  Forall
    (fun r => package_of_record r = package_name
              /\ source_of_record r = value src) names.
Proof.
  revert acc. induction modules as [| module rest IH]; intros acc Hacc H;
    cbn [modules_loop] in H.
  - now injection H as <-.
  - apply result_bind_inv in H as (found & Hfound & H).
    apply IH in H; [exact H |].
    apply Forall_app. split; [exact Hacc |].
    assert (Hrec := get_names_tagged _ _ _ _ _ _ _ Hfound).
    apply Forall_forall. intros r Hr.
    destruct (proj1 (Forall_forall _ _) Hrec r Hr) as (Hp & Hs & _).
    now split.
Qed.

(** X12: every record [find_all_names_in_package] returns has, as owning
    package, the name the path was classified under, and as provenance the
    one given or, when none is given, the one derived from the path;
    whichever module of the package the record comes from. *)
Theorem find_all_names_in_package_records (env : Env) (package_path : path)
    (recursive : bool) (package_source : option Source) (underlined : bool)
    (package_name : string) (package_type : PackageType)
    (names : list Name) :
  get_package_name_from_path env package_path
  = Some (package_name, package_type) ->
  result (find_all_names_in_package env package_path recursive package_source
            underlined) = Returned names ->
  Forall
    (fun r =>
       package_of_record r = package_name
       /\ source_of_record r
          = value (source_in_use env package_path package_source))
    names.
Proof.
  intros Hc. unfold find_all_names_in_package. rewrite Hc.
  fold (source_in_use env package_path package_source).
  destruct package_type.
  - destruct recursive.
    + intros H. apply result_bind_inv in H as ([] & _ & H).
      now apply modules_loop_tagged in H.
    + now apply modules_loop_tagged.
  - intros [= <-]. constructor.
  - now apply modules_loop_tagged.
Qed.

Lemma find_all_names_in_package_records_witness :
  Forall
    (fun r =>
       package_of_record r = "tree"
       /\ source_of_record r = value (source_in_use Samples.world ["tree"] None))
    [record "tree.top" "tree" Demo.project "baz";
     record "tree.sub.leaf" "tree" Demo.project "foo";
     record "tree.sub.leaf" "tree" Demo.project "Bar"].
Proof.
  apply (find_all_names_in_package_records Samples.world ["tree"] true None
           false "tree" STANDARD).
  - reflexivity.
  - reflexivity.
Defined.

(** ** Walking sources never imports *)

Lemma bind_no_import {A B : Type} (m : Py A) (k : A -> Py B) :
  existsb is_import (trace m) = false ->
  (forall a, existsb is_import (trace (k a)) = false) ->
  existsb is_import (trace (bind m k)) = false.
Proof.
  intros Hm Hk. unfold bind, trace in *.
  destruct (snd m) as [a | e]; simpl; [| exact Hm].
  rewrite existsb_app, Hm. apply Hk.
Qed.

Lemma get_names_from_file_no_import (env : Env) (module : path)
    (modname package : string) (src : Source) (only_all underlined : bool) :
  existsb is_import
    (trace (get_names_from_file env module modname package src only_all
              underlined)) = false.
Proof.
  unfold get_names_from_file.
  apply bind_no_import; [reflexivity |]. intros _.
  apply bind_no_import; [reflexivity |]. intros source.
  destruct (ast_parse env source) as [root_node | []]; try reflexivity.
  apply bind_no_import; [reflexivity |]. intros [names | results].
  - reflexivity.
  - now destruct only_all.
Qed.

Lemma extend_names_no_import (env : Env) (files : list path)
    (modname package_name : string) (src : Source) (underlined : bool)
    (names : list Name) :
  existsb is_import
    (trace (extend_names env files modname package_name src underlined names))
  = false.
Proof.
  revert names. induction files as [| file rest IH]; intros names;
    cbn [extend_names].
  - reflexivity.
  - apply bind_no_import; [apply get_names_from_file_no_import |].
    intros found. apply IH.
Qed.

Lemma get_names_no_import (env : Env) (modpath : path)
    (modname package_name : string) (src : Source) (underlined : bool) :
  existsb is_import
    (trace (get_names env modpath modname package_name src underlined))
  = false.
Proof.
  assert (Hscan : existsb is_import
                    (trace (scan_directory env modpath modname package_name
                              src underlined)) = false).
  { unfold scan_directory. apply bind_no_import; [reflexivity |].
    intros _. apply extend_names_no_import. }
  unfold get_names. destruct (is_dir env modpath).
  - destruct (exists_ env (modpath // "__init__.py")); [| exact Hscan].
    apply bind_no_import; [apply get_names_from_file_no_import |].
    intros names. now destruct (0 <? length names)%nat.
  - destruct (String.eqb (suffix modpath) ".py");
      [apply get_names_from_file_no_import | reflexivity].
Qed.

Lemma modules_loop_no_import (env : Env) (modules : list (path * string))
    (package_name : string) (src : Source) (underlined : bool)
    (names : list Name) :
  existsb is_import
    (trace (modules_loop env modules package_name src underlined names))
  = false.
Proof.
  revert names. induction modules as [| module rest IH]; intros names;
    cbn [modules_loop].
  - reflexivity.
  - apply bind_no_import; [apply get_names_no_import |].
    intros found. apply IH.
Qed.

(** X13: on no input does [find_all_names_in_package] attempt to import a
    module, whether it returns or raises: it only ever reads source files. *)
Theorem find_all_names_in_package_never_imports (env : Env)
    (package_path : path) (recursive : bool) (package_source : option Source)
    (underlined : bool) :
  existsb is_import
    (trace (find_all_names_in_package env package_path recursive
              package_source underlined)) = false.
Proof.
  unfold find_all_names_in_package.
  destruct (get_package_name_from_path env package_path)
    as [[package_name package_type] |]; [| reflexivity].
  destruct package_type.
  - destruct recursive.
    + apply bind_no_import; [reflexivity |]. intros _.
      apply modules_loop_no_import.
    + apply modules_loop_no_import.
  - reflexivity.
  - apply modules_loop_no_import.
Qed.

(** ** How the directory scan ends *)

Lemma bind_raised {A B : Type} (m : Py A) (k : A -> Py B) (e : exn) :
  result m = Raised e -> bind m k = (trace m, Raised e).
Proof. unfold bind, result, trace. now intros ->. Qed.

Lemma extend_names_trace (env : Env) (modname package_name : string)
    (src : Source) (underlined : bool) (files : list path)
    (found : list (list Name)) (names : list Name) :
  Forall2
    (fun file ns =>
       result (extract_file env modname package_name src underlined file)
       = Returned ns) files found ->
  trace (extend_names env files modname package_name src underlined names)
  = flat_map
      (fun file =>
         trace (extract_file env modname package_name src underlined file))
      files.
Proof.
  intros H. revert names.
  induction H as [| file ns files found Hfile _ IH]; intros names;
    cbn [extend_names flat_map].
  - reflexivity.
  - unfold extract_file in Hfile. rewrite (bind_returned _ _ _ Hfile).
    unfold trace at 1. cbn [fst]. now rewrite IH.
Qed.

Lemma extend_names_aborts (env : Env) (modname package_name : string)
    (src : Source) (underlined : bool) (pre post : list path) (file : path)
    (found : list (list Name)) (e : exn) (names : list Name) :
  Forall2
    (fun f ns =>
       result (extract_file env modname package_name src underlined f)
       = Returned ns) pre found ->
  result (extract_file env modname package_name src underlined file)
  = Raised e ->
  extend_names env (pre ++ file :: post) modname package_name src underlined
    names
  = (flat_map
       (fun f => trace (extract_file env modname package_name src underlined f))
       pre
     ++ trace (extract_file env modname package_name src underlined file),
     Raised e).
Proof.
  intros H He. revert names.
  induction H as [| f ns pre found Hf _ IH]; intros names;
    cbn [app extend_names flat_map].
  - unfold extract_file in He. now rewrite (bind_raised _ _ _ He).
  - unfold extract_file in Hf. rewrite (bind_returned _ _ _ Hf).
    rewrite IH. unfold trace, result, extract_file. cbn [fst snd].
    now rewrite app_assoc.
Qed.

(** X14: one file that raises ends the scan of a directory.  When the
    initializer is absent or yields no name, the files the glob enumerates
    before [file] all yield names, and extracting [file] raises [e], then
    [get_names] raises [e]; its trace ends with the attempt on [file], so
    that none of the files enumerated after it is opened, and the names
    found before it are lost. *)
Theorem get_names_directory_scan_aborts (env : Env) (modpath : path)
    (modname package_name : string) (package_source : Source)
    (underlined : bool) (pre post : list path) (file : path)
    (found : list (list Name)) (e : exn) :
  is_dir env modpath = true ->
  exists_ env (modpath // "__init__.py") = false
  \/ result (get_names_from_file env (modpath // "__init__.py") modname
               package_name package_source true false) = Returned [] ->
  glob_py env modpath = pre ++ file :: post ->
  Forall2
    (fun f ns =>
       result (get_names_from_file env f (modname ++ "." ++ stem f)
                 package_name package_source false underlined) = Returned ns)
    pre found ->
  result (get_names_from_file env file (modname ++ "." ++ stem file)
            package_name package_source false underlined) = Raised e ->
  get_names env modpath modname package_name package_source underlined
  = ((if exists_ env (modpath // "__init__.py")
      then trace (get_names_from_file env (modpath // "__init__.py") modname
                    package_name package_source true false)
      else [])
     ++ EvGlob modpath
        :: flat_map
             (fun f =>
                trace (get_names_from_file env f (modname ++ "." ++ stem f)
                         package_name package_source false underlined))
             pre
        ++ trace (get_names_from_file env file (modname ++ "." ++ stem file)
                    package_name package_source false underlined),
     Raised e).
Proof.
  intros Hdir Hinit Hglob Hpre Hfile.
  assert (Hscan :
            scan_directory env modpath modname package_name package_source
              underlined
            = (EvGlob modpath
               :: flat_map
                    (fun f =>
                       trace (extract_file env modname package_name
                                package_source underlined f)) pre
               ++ trace (extract_file env modname package_name package_source
                           underlined file),
               Raised e)).
  { unfold scan_directory. rewrite Hglob.
    rewrite (extend_names_aborts env modname package_name package_source
               underlined pre post file found e [] Hpre Hfile).
    reflexivity. }
  unfold get_names. rewrite Hdir.
  destruct (exists_ env (modpath // "__init__.py")).
  - destruct Hinit as [Habs | Hempty]; [discriminate Habs |].
    rewrite (bind_returned _ _ _ Hempty). cbn [length Nat.ltb Nat.leb].
    rewrite Hscan. reflexivity.
  - exact Hscan.
Qed.

Lemma get_names_directory_scan_aborts_witness :
  get_names Samples.world ["halts"] "halts" "halts" Demo.project false
  = ((if exists_ Samples.world (["halts"] // "__init__.py")
      then trace (get_names_from_file Samples.world
                    (["halts"] // "__init__.py") "halts" "halts" Demo.project
                    true false)
      else [])
     ++ EvGlob ["halts"]
        :: flat_map
             (fun f =>
                trace (get_names_from_file Samples.world f
                         ("halts" ++ "." ++ stem f) "halts" Demo.project false
                         false))
             [["halts"; "a.py"]]
        ++ trace (get_names_from_file Samples.world ["halts"; "b.py"]
                    ("halts" ++ "." ++ stem ["halts"; "b.py"]) "halts"
                    Demo.project false false),
     Raised (OSError "Permission denied")).
Proof.
  apply (get_names_directory_scan_aborts Samples.world ["halts"] "halts"
           "halts" Demo.project false [["halts"; "a.py"]]
           [["halts"; "c.py"]] ["halts"; "b.py"]
           [[record "halts.a" "halts" Demo.project "baz"]]).
  - reflexivity.
  - left. reflexivity.
  - reflexivity.
  - repeat constructor.
  - reflexivity.
Defined.

Lemma syntax_error_reported (env : Env) (module : path)
    (modname package : string) (src : Source) (only_all underlined : bool)
    (source msg : string) :
  open_read env module = Returned source ->
  ast_parse env source = Raised (SyntaxError msg) ->
  get_names_from_file env module modname package src only_all underlined
  = ([EvOpen module; EvPrint msg], Returned []).
Proof.
  intros Ho Hp. unfold get_names_from_file, bind, emit, lift, ret; simpl.
  rewrite Ho; simpl. rewrite Hp. reflexivity.
Qed.

(** X15: an initializer with a syntax error is read and reported twice.
    [get_names] opens it first to look for an export list and prints the
    error; as that yields no name it scans the directory, where the glob
    enumerates the initializer again, and (when the files of the directory
    all yield names) the same error is printed a second time. *)
Theorem get_names_broken_initializer_reported_twice (env : Env)
    (modpath : path) (modname package_name : string)
    (package_source : Source) (underlined : bool) (source msg : string) :
  is_dir env modpath = true ->
  open_read env (modpath // "__init__.py") = Returned source ->
  ast_parse env source = Raised (SyntaxError msg) ->
  (forall file, In file (glob_py env modpath) ->
     exists ns,
       result (get_names_from_file env file (modname ++ "." ++ stem file)
                 package_name package_source false underlined) = Returned ns) ->
  exists before after,
    trace (get_names env modpath modname package_name package_source
             underlined)
    = [EvOpen (modpath // "__init__.py"); EvPrint msg; EvGlob modpath]
      ++ before
      ++ [EvOpen (modpath // "__init__.py"); EvPrint msg]
      ++ after.
Proof.
  intros Hdir Ho Hp Hfiles.
  pose proof (open_read_exists _ _ _ Ho) as Hex.
  pose proof (glob_py_finds env modpath "__init__.py" Hex eq_refl) as Hglob.
  destruct (extract_all env modname package_name package_source underlined _
              Hfiles) as [found Hfound].
  destruct (in_split _ _ Hglob) as (l1 & l2 & Hsplit).
  exists (flat_map
            (fun f => trace (extract_file env modname package_name
                               package_source underlined f)) l1),
         (flat_map
            (fun f => trace (extract_file env modname package_name
                               package_source underlined f)) l2).
  unfold get_names. rewrite Hdir, Hex.
  rewrite (syntax_error_reported _ _ modname _ _ true false _ _ Ho Hp).
  unfold bind at 1. cbn [snd fst length Nat.ltb Nat.leb trace].
  unfold scan_directory, bind, emit. cbn [snd fst].
  fold (trace (extend_names env (glob_py env modpath) modname package_name
                 package_source underlined [])).
  rewrite (extend_names_trace env modname package_name package_source
             underlined _ found [] Hfound).
  rewrite Hsplit, flat_map_app. cbn [flat_map].
  unfold extract_file at 2.
  rewrite (syntax_error_reported _ _ _ _ _ false underlined _ _ Ho Hp).
  reflexivity.
Qed.

Lemma get_names_broken_initializer_reported_twice_witness :
  exists before after,
    trace (get_names Samples.world ["broken_init"] "broken_init" "broken_init"
             Demo.project false)
    = [EvOpen (["broken_init"] // "__init__.py");
       EvPrint "invalid syntax (<unknown>, line 1)"; EvGlob ["broken_init"]]
      ++ before
      ++ [EvOpen (["broken_init"] // "__init__.py");
          EvPrint "invalid syntax (<unknown>, line 1)"]
      ++ after.
Proof.
  apply (get_names_broken_initializer_reported_twice Samples.world
           ["broken_init"] "broken_init" "broken_init" Demo.project false
           Demo.src_broken).
  - reflexivity.
  - reflexivity.
  - reflexivity.
  - intros file [<- | [<- | []]]; eexists; reflexivity.
Defined.

(** ** The orchestrator over its modules *)

Lemma modules_loop_single (env : Env) (module : path * string)
    (package_name : string) (src : Source) (underlined : bool) :
  modules_loop env [module] package_name src underlined []
  = get_names env (fst module) (snd module) package_name src underlined.
Proof.
  cbn [modules_loop app]. unfold bind, ret.
  destruct (get_names env (fst module) (snd module) package_name src
              underlined) as [t [found | e]]; cbn [fst snd].
  - now rewrite app_nil_r.
  - reflexivity.
Qed.

(** X16: for a single-file module, whatever [recursive] is, and for a
    directory package scanned without recursion,
    [find_all_names_in_package] does exactly what [get_names] does on the
    package path itself, with the package name as module name: the same
    trace, the same names or the same exception. *)
Theorem find_all_names_in_package_single_module (env : Env)
    (package_path : path) (recursive : bool) (package_source : option Source)
    (underlined : bool) (package_name : string) (package_type : PackageType) :
  get_package_name_from_path env package_path
  = Some (package_name, package_type) ->
  package_type = SINGLE_FILE
  \/ (package_type = STANDARD /\ recursive = false) ->
  find_all_names_in_package env package_path recursive package_source
    underlined
  = get_names env package_path package_name package_name
      (source_in_use env package_path package_source) underlined.
Proof.
  intros Hc Hkind. unfold find_all_names_in_package. rewrite Hc.
  fold (source_in_use env package_path package_source).
  destruct Hkind as [-> | [-> ->]]; apply modules_loop_single.
Qed.

Lemma find_all_names_in_package_single_module_witness :
  find_all_names_in_package Samples.world ["nums.py"] true None false
  = get_names Samples.world ["nums.py"] "nums" "nums"
      (source_in_use Samples.world ["nums.py"] None) false.
Proof.
  apply (find_all_names_in_package_single_module Samples.world ["nums.py"]
           true None false "nums" SINGLE_FILE).
  - reflexivity.
  - left. reflexivity.
Defined.

Lemma modules_loop_concat (env : Env) (modules : list (path * string))
    (package_name : string) (src : Source) (underlined : bool)
    (found : list (list Name)) (names : list Name) :
  Forall2
    (fun module ns =>
       result (get_names env (fst module) (snd module) package_name src
                 underlined) = Returned ns) modules found ->
  result (modules_loop env modules package_name src underlined names)
  = Returned (names ++ concat found).
Proof.
  intros H. revert names.
  induction H as [| module ns modules found Hm _ IH]; intros names;
    cbn [modules_loop concat].
  - now rewrite app_nil_r.
  - rewrite (result_bind_returned _ _ _ Hm), IH, <- app_assoc. reflexivity.
Qed.

(** X17: in a recursive scan of a directory package, when [get_names]
    yields names for each submodule that the exclusion test keeps, the
    result is the concatenation of those lists in the order the submodules
    are enumerated; nothing is sorted and no duplicate is removed. *)
Theorem find_all_names_in_package_concatenates (env : Env)
    (package_path : path) (package_source : option Source) (underlined : bool)
    (package_name : string) (found : list (list Name)) :
  get_package_name_from_path env package_path = Some (package_name, STANDARD) ->
  Forall2
    (fun module ns =>
       result (get_names env (fst module) (snd module) package_name
                 (source_in_use env package_path package_source) underlined)
       = Returned ns)
    (submodules_loop env (submodules env package_path) package_path underlined
       [])
    found ->
  result (find_all_names_in_package env package_path true package_source
            underlined)
  = Returned (concat found).
Proof.
  intros Hc Hfound. unfold find_all_names_in_package. rewrite Hc.
  fold (source_in_use env package_path package_source).
  unfold bind, emit, result. cbn [snd fst].
  exact (modules_loop_concat env _ package_name _ underlined found [] Hfound).
Qed.

Lemma find_all_names_in_package_concatenates_witness :
  result (find_all_names_in_package Samples.world ["tree"] true None false)
  = Returned
      (concat [[record "tree.top" "tree" Demo.project "baz"];
               [record "tree.sub.leaf" "tree" Demo.project "foo";
                record "tree.sub.leaf" "tree" Demo.project "Bar"]]).
Proof.
  apply (find_all_names_in_package_concatenates Samples.world ["tree"] None
           false "tree").
  - reflexivity.
  - repeat constructor.
Defined.

(** X18: a recursive scan of a directory package with [underlined] set
    returns no name at all, whatever the package holds: the exclusion test
    drops every submodule, so no file is opened. *)
Theorem find_all_names_in_package_underlined_recursive_empty (env : Env)
    (package_path : path) (package_source : option Source)
    (package_name : string) :
  get_package_name_from_path env package_path = Some (package_name, STANDARD) ->
  find_all_names_in_package env package_path true package_source true
  = ([EvSubmodules package_path], Returned []).
Proof.
  intros Hc. unfold find_all_names_in_package. rewrite Hc.
  now rewrite submodules_loop_underlined.
Qed.

Lemma find_all_names_in_package_underlined_recursive_empty_witness :
  find_all_names_in_package Samples.world ["tree"] true None true
  = ([EvSubmodules ["tree"]], Returned []).
Proof.
  apply (find_all_names_in_package_underlined_recursive_empty Samples.world
           ["tree"] None "tree").
  reflexivity.
Defined.
